(** * jp-go-errors: typed error variants and the retry-classification policy

    A shallow embedding of the Go package [errors] of jp-go-errors
    (errors.go, options.go, resilience.go, retryable.go) together with the
    properties of its classification entry points.

    Conventions of the embedding.
    - A Go [error] interface value is a value of the inductive type [error];
      the nil interface is the constructor [NoError].
    - Each struct of the package is a record with the source's field names,
      in a module named after the struct.  The records are parameterised by
      the type of errors, because their cause fields hold errors.
    - Sentinels ([errors.New] values kept in package variables, and the two
      conditions of package [context]) are compared by identity in Go; here
      each is a constructor of [sentinel].
    - The chain primitives [errors.Is], [errors.As], [errors.Unwrap] and
      [errors.Wrap] belong to the imported library cockroachdb/errors.  They
      are embedded by their contract: the chain of an error is what repeated
      unwrapping yields, [Is] looks for an identical sentinel in the chain,
      [As] returns the first value of the chain, starting from the error
      itself, that has the requested type or method set.
    - Strings are byte strings; [strings.ToLower] is taken on the ASCII
      range. *)

From stdpp Require Import gmap strings.
From Stdlib Require Import Bool List ZArith Lia Ascii String DecimalString.
Import ListNotations.

Local Open Scope string_scope.
Local Open Scope Z_scope.

Set Implicit Arguments.
Set Warnings "-register-all".

(* ================================================================= *)
(** ** Sentinels *)

(** errors.go:56-77 and 537-543, resilience.go:13-22, and the two exported
    conditions of package [context]. *)
Inductive sentinel : Type :=
| ErrRateLimited
| ErrNetworkTimeout
| ErrServerError
| ErrConnectionError
| ErrDeadlock
| ErrCircuitOpen
| ErrInvalidResponse
| ErrActivityNotFound
| ErrLocationNotFound
| ErrCircuitHalfOpen
| ErrRetryExhausted
| ErrMaxAttemptsInvalid
| context_DeadlineExceeded
| context_Canceled.

Definition sentinel_eqb (a b : sentinel) : bool :=
  match a, b with
  | ErrRateLimited, ErrRateLimited
  | ErrNetworkTimeout, ErrNetworkTimeout
  | ErrServerError, ErrServerError
  | ErrConnectionError, ErrConnectionError
  | ErrDeadlock, ErrDeadlock
  | ErrCircuitOpen, ErrCircuitOpen
  | ErrInvalidResponse, ErrInvalidResponse
  | ErrActivityNotFound, ErrActivityNotFound
  | ErrLocationNotFound, ErrLocationNotFound
  | ErrCircuitHalfOpen, ErrCircuitHalfOpen
  | ErrRetryExhausted, ErrRetryExhausted
  | ErrMaxAttemptsInvalid, ErrMaxAttemptsInvalid
  | context_DeadlineExceeded, context_DeadlineExceeded
  | context_Canceled, context_Canceled => true
  | _, _ => false
  end.

(** The message each sentinel was created with. *)
Definition sentinel_text (s : sentinel) : string :=
  match s with
  | ErrRateLimited => "rate limited"
  | ErrNetworkTimeout => "network timeout"
  | ErrServerError => "server error"
  | ErrConnectionError => "connection error"
  | ErrDeadlock => "database deadlock"
  | ErrCircuitOpen => "circuit breaker open"
  | ErrInvalidResponse => "invalid response"
  | ErrActivityNotFound => "activity not found"
  | ErrLocationNotFound => "location not found"
  | ErrCircuitHalfOpen => "circuit breaker half-open, too many requests"
  | ErrRetryExhausted => "retry attempts exhausted"
  | ErrMaxAttemptsInvalid => "max retry attempts must be positive"
  | context_DeadlineExceeded => "context deadline exceeded"
  | context_Canceled => "context canceled"
  end.

(* ================================================================= *)
(** ** The structs *)

(** A Go value of type [any], as far as the [Value] field of a validation
    error is printed: the untyped nil, an integer, a string or a boolean. *)
Inductive any : Type :=
| AnyNil
| AnyInt (n : Z)
| AnyString (s : string)
| AnyBool (b : bool).

(** resilience.go:24-32. *)
Module CircuitCounts.
Record t : Type := mk {
  Requests : Z;
  TotalSuccesses : Z;
  TotalFailures : Z;
  ConsecutiveSuccesses : Z;
  ConsecutiveFailures : Z
}.
Definition zero : t := mk 0 0 0 0 0.
End CircuitCounts.

(** errors.go:81-86. *)
Module HTTPError.
Record t (E : Type) : Type := mk {
  StatusCode : Z;
  Message : string;
  Component : string;
  Err : E
}.
Arguments mk {E}.
End HTTPError.

(** errors.go:138-144. [RetryAfter] is a [time.Duration]: nanoseconds. *)
Module RateLimitError.
Record t (E : Type) : Type := mk {
  Message : string;
  Operation : string;
  Component : string;
  RetryAfter : Z;
  Err : E
}.
Arguments mk {E}.
End RateLimitError.

(** errors.go:184-190. *)
Module RetryableError.
Record t (E : Type) : Type := mk {
  Message : string;
  Operation : string;
  Component : string;
  RetryAfter : Z;
  Err : E
}.
Arguments mk {E}.
End RetryableError.

(** errors.go:229-235. *)
Module TimeoutError.
Record t (E : Type) : Type := mk {
  Message : string;
  Operation : string;
  Component : string;
  Duration : Z;
  Err : E
}.
Arguments mk {E}.
End TimeoutError.

(** errors.go:289-295. *)
Module ValidationError.
Record t (E : Type) : Type := mk {
  Message : string;
  Field : string;
  Component : string;
  Value : any;
  Err : E
}.
Arguments mk {E}.
End ValidationError.

(** errors.go:348-355. *)
Module ProcessingError.
Record t (E : Type) : Type := mk {
  Message : string;
  Operation : string;
  ItemID : string;
  Component : string;
  Retryable : bool;
  Err : E
}.
Arguments mk {E}.
End ProcessingError.

(** errors.go:420-426. *)
Module NetworkError.
Record t (E : Type) : Type := mk {
  Message : string;
  Operation : string;
  Component : string;
  IsTransient : bool;
  Err : E
}.
Arguments mk {E}.
End NetworkError.

(** errors.go:470-476.

    Modelled from the spec: the field [Counts] is not declared in
    errors.go; the set-counts adjustment of the configuration mechanism
    fills it ("carries observability counters mirroring a circuit breaker's
    request/success/failure tallies") and the package's tests read it back.
    No function of errors.go or retryable.go reads it. *)
Module CircuitBreakerError.
Record t (E : Type) : Type := mk {
  Message : string;
  Operation : string;
  Component : string;
  State : string;
  Err : E;
  Counts : CircuitCounts.t
}.
Arguments mk {E}.
End CircuitBreakerError.

(** resilience.go:36-43. *)
Module RetryError.
Record t (E : Type) : Type := mk {
  Attempts : Z;
  MaxAttempts : Z;
  LastError : E;
  AllErrors : list E;
  Operation : string;
  Component : string
}.
Arguments mk {E}.
End RetryError.

(** An error value of a type declared outside the package: what its
    [Error] method prints, the verdict of its [IsRetryable] method if it has
    one (the [Retryable] interface of retryable.go:13-15), the answer of its
    [Timeout] method if it implements [net.Error], and what its [Unwrap]
    method returns ([NoError] below when it has none). *)
Module ForeignError.
Record t (E : Type) : Type := mk {
  Text : string;
  SelfRetryable : option bool;
  NetTimeout : option bool;
  Cause : E
}.
Arguments mk {E}.
End ForeignError.

(** The values of the interface type [error]. *)
Inductive error : Type :=
| NoError                                        (* nil *)
| Sentinel (s : sentinel)                        (* a package-level sentinel *)
| Leaf (msg : string)                            (* errors.New(msg), fmt.Errorf(msg) *)
| Wrapped (msg : string) (cause : error)         (* errors.Wrap(cause, msg) *)
| Foreign (e : ForeignError.t error)
| EHTTP (e : HTTPError.t error)                  (* *HTTPError *)
| ERateLimit (e : RateLimitError.t error)        (* *RateLimitError *)
| ERetryable (e : RetryableError.t error)        (* *RetryableError *)
| ETimeout (e : TimeoutError.t error)            (* *TimeoutError *)
| EValidation (e : ValidationError.t error)      (* *ValidationError *)
| EProcessing (e : ProcessingError.t error)      (* *ProcessingError *)
| ENetwork (e : NetworkError.t error)            (* *NetworkError *)
| ECircuitBreaker (e : CircuitBreakerError.t error) (* *CircuitBreakerError *)
| ERetry (e : RetryError.t error).               (* *RetryError *)

Definition isNil (err : error) : bool :=
  match err with NoError => true | _ => false end.

(* ================================================================= *)
(** ** Text helpers of the Go standard library *)

(** [%d] of an integer. *)
Definition fmt_d (n : Z) : string := NilZero.string_of_int (Z.to_int n).

(** [time.fmtFrac]: the last [prec] decimal digits of [v] as a fraction,
    trailing zeros and a bare decimal point omitted, and [v / 10^prec].
    [acc] is the text already produced to the right, [print] tells whether a
    non-zero digit has been seen. *)
Fixpoint fmtFrac (prec : nat) (print : bool) (acc : string) (v : Z) : string * Z :=
  match prec with
  | O => ((if print then "." ++ acc else acc)%string, v)
  | S prec' =>
      let digit := v mod 10 in
      let print' := print || negb (digit =? 0) in
      fmtFrac prec' print'
              (if print' then (fmt_d digit ++ acc)%string else acc) (v / 10)
  end.

(** [time.Duration.String], the [%v] of a duration given in nanoseconds. *)
Definition Duration_String (d : Z) : string :=
  let u := Z.abs d in
  let body :=
    if u <? 1000000000 then
      if u =? 0 then "0s"
      else if u <? 1000 then
        let '(f, i) := fmtFrac 0 false "ns" u in fmt_d i ++ f
      else if u <? 1000000 then
        let '(f, i) :=
          fmtFrac 3 false
                  (String (ascii_of_nat 194) (String (ascii_of_nat 181) "s")) u in
        fmt_d i ++ f
      else
        let '(f, i) := fmtFrac 6 false "ms" u in fmt_d i ++ f
    else
      let '(f, secs) := fmtFrac 9 false "s" u in
      let s := fmt_d (secs mod 60) ++ f in
      let mins := secs / 60 in
      if 0 <? mins then
        let m := fmt_d (mins mod 60) ++ "m" ++ s in
        let hours := mins / 60 in
        if 0 <? hours then fmt_d hours ++ "h" ++ m else m
      else s in
  (if (d <? 0)%Z then "-" else "") ++ body.

(** [%v] of a value of type [any]. *)
Definition fmt_v (v : any) : string :=
  match v with
  | AnyNil => "<nil>"
  | AnyInt n => fmt_d n
  | AnyString s => s
  | AnyBool true => "true"
  | AnyBool false => "false"
  end.

(** [strings.ToLower] on the ASCII range; bytes outside it are kept, where
    the library lowers Unicode letters as well. *)
Definition lower_ascii (c : ascii) : ascii :=
  let n := nat_of_ascii c in
  if (65 <=? n)%nat && (n <=? 90)%nat then ascii_of_nat (n + 32) else c.

Fixpoint ToLower (s : string) : string :=
  match s with
  | EmptyString => EmptyString
  | String c s' => String (lower_ascii c) (ToLower s')
  end.

(** [strings.Contains]. *)
Fixpoint Contains (s substr : string) : bool :=
  if prefix substr s then true
  else match s with
       | EmptyString => false
       | String _ s' => Contains s' substr
       end.

Definition nonEmpty (s : string) : bool :=
  match s with EmptyString => false | _ => true end.

(* ================================================================= *)
(** ** Chain traversal *)

(** The [Unwrap] methods: errors.go:100, 160, 206, 251, 320, 381, 447, 492
    and resilience.go:67.  Eight of the structs return their [Err] field; a
    [RetryError] returns the sentinel [ErrRetryExhausted]. *)
Definition HTTPError_Unwrap (e : HTTPError.t error) : error := HTTPError.Err e.
Definition RateLimitError_Unwrap (e : RateLimitError.t error) : error := RateLimitError.Err e.
Definition RetryableError_Unwrap (e : RetryableError.t error) : error := RetryableError.Err e.
Definition TimeoutError_Unwrap (e : TimeoutError.t error) : error := TimeoutError.Err e.
Definition ValidationError_Unwrap (e : ValidationError.t error) : error := ValidationError.Err e.
Definition ProcessingError_Unwrap (e : ProcessingError.t error) : error := ProcessingError.Err e.
Definition NetworkError_Unwrap (e : NetworkError.t error) : error := NetworkError.Err e.
Definition CircuitBreakerError_Unwrap (e : CircuitBreakerError.t error) : error :=
  CircuitBreakerError.Err e.
Definition RetryError_Unwrap (e : RetryError.t error) : error := Sentinel ErrRetryExhausted.

(** [errors.Unwrap]: the direct cause of an error, [NoError] when it has
    none. *)
Definition Unwrap (err : error) : error :=
  match err with
  | NoError | Sentinel _ | Leaf _ => NoError
  | Wrapped _ cause => cause
  | Foreign e => ForeignError.Cause e
  | EHTTP e => HTTPError_Unwrap e
  | ERateLimit e => RateLimitError_Unwrap e
  | ERetryable e => RetryableError_Unwrap e
  | ETimeout e => TimeoutError_Unwrap e
  | EValidation e => ValidationError_Unwrap e
  | EProcessing e => ProcessingError_Unwrap e
  | ENetwork e => NetworkError_Unwrap e
  | ECircuitBreaker e => CircuitBreakerError_Unwrap e
  | ERetry e => RetryError_Unwrap e
  end.

(** [errors.Wrap]: nil stays nil, anything else gets a message layer. *)
Definition Wrap (err : error) (msg : string) : error :=
  match err with
  | NoError => NoError
  | _ => Wrapped msg err
  end.

(** The chain of an error: the error itself, its cause, the cause of its
    cause, and so on; nil has the empty chain.  The recursion follows
    [Unwrap] constructor by constructor (lemma [chain_Unwrap] below). *)
Fixpoint chain (err : error) : list error :=
  match err with
  | NoError => []
  | Sentinel _ | Leaf _ => [err]
  | Wrapped _ cause => err :: chain cause
  | Foreign e => err :: chain (ForeignError.Cause e)
  | EHTTP e => err :: chain (HTTPError.Err e)
  | ERateLimit e => err :: chain (RateLimitError.Err e)
  | ERetryable e => err :: chain (RetryableError.Err e)
  | ETimeout e => err :: chain (TimeoutError.Err e)
  | EValidation e => err :: chain (ValidationError.Err e)
  | EProcessing e => err :: chain (ProcessingError.Err e)
  | ENetwork e => err :: chain (NetworkError.Err e)
  | ECircuitBreaker e => err :: chain (CircuitBreakerError.Err e)
  | ERetry e => [err; Sentinel ErrRetryExhausted]
  end.

(** [errors.As(err, &target)]: walk the chain from [err] on and return the
    first value the target accepts; nil has nothing to offer.  [target e] is
    [Some v] when [e] is assignable to the target's type, [v] being [e] seen
    at that type.  The cause of a [RetryError] is the sentinel
    [ErrRetryExhausted], which ends the chain (lemma [As_unfold] below states
    the walk through [Unwrap]). *)
Definition As {T : Type} (target : error -> option T) : error -> option T :=
  fix walk (err : error) : option T :=
    if isNil err then None
    else
      match target err with
      | Some v => Some v
      | None =>
          match err with
          | NoError | Sentinel _ | Leaf _ => None
          | Wrapped _ cause => walk cause
          | Foreign e => walk (ForeignError.Cause e)
          | EHTTP e => walk (HTTPError.Err e)
          | ERateLimit e => walk (RateLimitError.Err e)
          | ERetryable e => walk (RetryableError.Err e)
          | ETimeout e => walk (TimeoutError.Err e)
          | EValidation e => walk (ValidationError.Err e)
          | EProcessing e => walk (ProcessingError.Err e)
          | ENetwork e => walk (NetworkError.Err e)
          | ECircuitBreaker e => walk (CircuitBreakerError.Err e)
          | ERetry e => target (Sentinel ErrRetryExhausted)
          end
      end.

(** [errors.Is(err, reference)] for a sentinel reference: some value of the
    chain is that very sentinel.  The library also accepts a value of the
    chain with the reference's type and message (its mark), so that for the
    code a fresh [errors.New] with a sentinel's text is that sentinel; here
    such a value is a [Leaf], distinct from the [Sentinel]. *)
Definition isSentinel (reference : sentinel) (err : error) : option unit :=
  match err with
  | Sentinel s => if sentinel_eqb s reference then Some tt else None
  | _ => None
  end.

Definition Is (err : error) (reference : sentinel) : bool :=
  match As (isSentinel reference) err with
  | Some _ => true
  | None => false
  end.

(** The targets the package passes to [errors.As]. *)
Definition asHTTPError (err : error) : option (HTTPError.t error) :=
  match err with EHTTP e => Some e | _ => None end.

Definition asTimeoutError (err : error) : option (TimeoutError.t error) :=
  match err with ETimeout e => Some e | _ => None end.

Definition asValidationError (err : error) : option (ValidationError.t error) :=
  match err with EValidation e => Some e | _ => None end.

Definition asNetworkError (err : error) : option (NetworkError.t error) :=
  match err with ENetwork e => Some e | _ => None end.

(** [net.Error]: implemented by foreign types that say so and by
    [context.DeadlineExceeded], whose [Timeout] method answers true.  The
    value returned is the answer of [Timeout]. *)
Definition asNetError (err : error) : option bool :=
  match err with
  | Foreign e => ForeignError.NetTimeout e
  | Sentinel context_DeadlineExceeded => Some true
  | _ => None
  end.

(* ================================================================= *)
(** ** Messages (the [Error] methods) *)

Section ErrorMethods.
(** [%v] of a non-nil cause calls the cause's own [Error] method. *)
Variable Error : error -> string.

(** errors.go:88-98. *)
Definition HTTPError_Error (e : HTTPError.t error) : string :=
  let msgStr :=
    if nonEmpty (HTTPError.Component e)
    then HTTPError.Component e ++ ": " ++ HTTPError.Message e
    else HTTPError.Message e in
  if negb (isNil (HTTPError.Err e))
  then "HTTP " ++ fmt_d (HTTPError.StatusCode e) ++ ": " ++ msgStr ++ ": "
       ++ Error (HTTPError.Err e)
  else "HTTP " ++ fmt_d (HTTPError.StatusCode e) ++ ": " ++ msgStr.

(** errors.go:146-158. *)
Definition RateLimitError_Error (e : RateLimitError.t error) : string :=
  let opStr :=
    if nonEmpty (RateLimitError.Component e)
    then RateLimitError.Component e ++ "/" ++ RateLimitError.Operation e
    else RateLimitError.Operation e in
  if negb (isNil (RateLimitError.Err e))
  then "rate limited in " ++ opStr ++ " (retry after "
       ++ Duration_String (RateLimitError.RetryAfter e) ++ "): "
       ++ RateLimitError.Message e ++ ": " ++ Error (RateLimitError.Err e)
  else "rate limited in " ++ opStr ++ " (retry after "
       ++ Duration_String (RateLimitError.RetryAfter e) ++ "): "
       ++ RateLimitError.Message e.

(** errors.go:192-204. *)
Definition RetryableError_Error (e : RetryableError.t error) : string :=
  let opStr :=
    if nonEmpty (RetryableError.Component e)
    then RetryableError.Component e ++ "/" ++ RetryableError.Operation e
    else RetryableError.Operation e in
  if negb (isNil (RetryableError.Err e))
  then "retryable error in " ++ opStr ++ " (retry after "
       ++ Duration_String (RetryableError.RetryAfter e) ++ "): "
       ++ RetryableError.Message e ++ ": " ++ Error (RetryableError.Err e)
  else "retryable error in " ++ opStr ++ " (retry after "
       ++ Duration_String (RetryableError.RetryAfter e) ++ "): "
       ++ RetryableError.Message e.

(** errors.go:237-249. *)
Definition TimeoutError_Error (e : TimeoutError.t error) : string :=
  let opStr :=
    if nonEmpty (TimeoutError.Component e)
    then TimeoutError.Component e ++ "/" ++ TimeoutError.Operation e
    else TimeoutError.Operation e in
  if negb (isNil (TimeoutError.Err e))
  then "timeout in " ++ opStr ++ " after "
       ++ Duration_String (TimeoutError.Duration e) ++ ": "
       ++ TimeoutError.Message e ++ ": " ++ Error (TimeoutError.Err e)
  else "timeout in " ++ opStr ++ " after "
       ++ Duration_String (TimeoutError.Duration e) ++ ": "
       ++ TimeoutError.Message e.

(** errors.go:297-318. *)
Definition ValidationError_Error (e : ValidationError.t error) : string :=
  let baseMsg :=
    if nonEmpty (ValidationError.Component e)
    then "validation failed in " ++ ValidationError.Component e
         ++ " for field '" ++ ValidationError.Field e ++ "' (value: "
         ++ fmt_v (ValidationError.Value e) ++ ")"
    else "validation failed for field '" ++ ValidationError.Field e
         ++ "' (value: " ++ fmt_v (ValidationError.Value e) ++ ")" in
  if nonEmpty (ValidationError.Message e) then
    if negb (isNil (ValidationError.Err e))
    then baseMsg ++ ": " ++ ValidationError.Message e ++ ": "
         ++ Error (ValidationError.Err e)
    else baseMsg ++ ": " ++ ValidationError.Message e
  else if negb (isNil (ValidationError.Err e))
  then baseMsg ++ ": " ++ Error (ValidationError.Err e)
  else baseMsg.

(** errors.go:357-379. *)
Definition ProcessingError_Error (e : ProcessingError.t error) : string :=
  let retryStr :=
    if ProcessingError.Retryable e then "retryable" else "not retryable" in
  let opStr :=
    if nonEmpty (ProcessingError.Component e)
    then ProcessingError.Component e ++ "/" ++ ProcessingError.Operation e
    else ProcessingError.Operation e in
  if nonEmpty (ProcessingError.ItemID e) then
    if negb (isNil (ProcessingError.Err e))
    then ProcessingError.Message e ++ ": " ++ opStr ++ " failed for item "
         ++ ProcessingError.ItemID e ++ " (" ++ retryStr ++ "): "
         ++ Error (ProcessingError.Err e)
    else ProcessingError.Message e ++ ": " ++ opStr ++ " failed for item "
         ++ ProcessingError.ItemID e ++ " (" ++ retryStr ++ ")"
  else if negb (isNil (ProcessingError.Err e))
  then ProcessingError.Message e ++ ": " ++ opStr ++ " failed (" ++ retryStr
       ++ "): " ++ Error (ProcessingError.Err e)
  else ProcessingError.Message e ++ ": " ++ opStr ++ " failed (" ++ retryStr
       ++ ")".

(** errors.go:428-445. *)
Definition NetworkError_Error (e : NetworkError.t error) : string :=
  let transientStr :=
    if NetworkError.IsTransient e then "transient" else "persistent" in
  let opStr :=
    if nonEmpty (NetworkError.Component e)
    then NetworkError.Component e ++ "/" ++ NetworkError.Operation e
    else NetworkError.Operation e in
  if negb (isNil (NetworkError.Err e))
  then "network error in " ++ opStr ++ " (" ++ transientStr ++ "): "
       ++ NetworkError.Message e ++ ": " ++ Error (NetworkError.Err e)
  else "network error in " ++ opStr ++ " (" ++ transientStr ++ "): "
       ++ NetworkError.Message e.

(** errors.go:478-490. *)
Definition CircuitBreakerError_Error (e : CircuitBreakerError.t error) : string :=
  let opStr :=
    if nonEmpty (CircuitBreakerError.Component e)
    then CircuitBreakerError.Component e ++ "/" ++ CircuitBreakerError.Operation e
    else CircuitBreakerError.Operation e in
  if negb (isNil (CircuitBreakerError.Err e))
  then "circuit breaker " ++ CircuitBreakerError.State e ++ " for " ++ opStr
       ++ ": " ++ CircuitBreakerError.Message e ++ ": "
       ++ Error (CircuitBreakerError.Err e)
  else "circuit breaker " ++ CircuitBreakerError.State e ++ " for " ++ opStr
       ++ ": " ++ CircuitBreakerError.Message e.

(** resilience.go:45-64. *)
Definition RetryError_Error (e : RetryError.t error) : string :=
  let opStr :=
    if nonEmpty (RetryError.Component e)
    then RetryError.Component e ++ "/" ++ RetryError.Operation e
    else RetryError.Operation e in
  let sb :=
    "retry exhausted after " ++ fmt_d (RetryError.Attempts e) ++ "/"
    ++ fmt_d (RetryError.MaxAttempts e) ++ " attempts" in
  let sb := if nonEmpty opStr then sb ++ " for " ++ opStr else sb in
  let sb :=
    if negb (isNil (RetryError.LastError e))
    then sb ++ ": " ++ Error (RetryError.LastError e)
    else sb in
  sb.
End ErrorMethods.

(** [err.Error()], dispatched on the dynamic type.  A leaf prints its
    message, a wrap layer prints its prefix before the message of what it
    wraps, a foreign value prints what its own method says.  No function of
    the package calls the method on nil; the empty text stands there. *)
Fixpoint Error (err : error) : string :=
  match err with
  | NoError => ""
  | Sentinel s => sentinel_text s
  | Leaf msg => msg
  | Wrapped msg cause =>
      if nonEmpty msg then msg ++ ": " ++ Error cause else Error cause
  | Foreign e => ForeignError.Text e
  | EHTTP e => HTTPError_Error Error e
  | ERateLimit e => RateLimitError_Error Error e
  | ERetryable e => RetryableError_Error Error e
  | ETimeout e => TimeoutError_Error Error e
  | EValidation e => ValidationError_Error Error e
  | EProcessing e => ProcessingError_Error Error e
  | ENetwork e => NetworkError_Error Error e
  | ECircuitBreaker e => CircuitBreakerError_Error Error e
  | ERetry e => RetryError_Error Error e
  end.

(* ================================================================= *)
(** ** Self-reported retryability (the [IsRetryable] methods) *)

(** errors.go:105-107. *)
Definition HTTPError_IsRetryable (e : HTTPError.t error) : bool :=
  (HTTPError.StatusCode e >=? 500) || (HTTPError.StatusCode e =? 429).

(** errors.go:164, 210, 255, 324, 451, 496 and resilience.go:72. *)
Definition RateLimitError_IsRetryable (e : RateLimitError.t error) : bool := true.
Definition RetryableError_IsRetryable (e : RetryableError.t error) : bool := true.
Definition TimeoutError_IsRetryable (e : TimeoutError.t error) : bool := true.
Definition ValidationError_IsRetryable (e : ValidationError.t error) : bool := false.
Definition NetworkError_IsRetryable (e : NetworkError.t error) : bool :=
  NetworkError.IsTransient e.
Definition CircuitBreakerError_IsRetryable (e : CircuitBreakerError.t error) : bool := false.
Definition RetryError_IsRetryable (e : RetryError.t error) : bool := false.

Section RetryableMethods.
(** The package function [IsRetryable], which the method of a processing
    error calls on its cause. *)
Variable IsRetryable : error -> bool.

(** errors.go:385-397. *)
Definition ProcessingError_IsRetryable (e : ProcessingError.t error) : bool :=
  if ProcessingError.Retryable e then true
  else if negb (isNil (ProcessingError.Err e)) && IsRetryable (ProcessingError.Err e)
  then true
  else false.

(** The target [var r Retryable] of [errors.As] followed by the call
    [r.IsRetryable()]: [None] when the dynamic type of [err] has no
    [IsRetryable] method, otherwise the verdict of that method. *)
Definition Retryable_IsRetryable (err : error) : option bool :=
  match err with
  | NoError | Sentinel _ | Leaf _ | Wrapped _ _ => None
  | Foreign e => ForeignError.SelfRetryable e
  | EHTTP e => Some (HTTPError_IsRetryable e)
  | ERateLimit e => Some (RateLimitError_IsRetryable e)
  | ERetryable e => Some (RetryableError_IsRetryable e)
  | ETimeout e => Some (TimeoutError_IsRetryable e)
  | EValidation e => Some (ValidationError_IsRetryable e)
  | EProcessing e => Some (ProcessingError_IsRetryable e)
  | ENetwork e => Some (NetworkError_IsRetryable e)
  | ECircuitBreaker e => Some (CircuitBreakerError_IsRetryable e)
  | ERetry e => Some (RetryError_IsRetryable e)
  end.
End RetryableMethods.

(* ================================================================= *)
(** ** Chain-introspection helpers (errors.go) *)

(** errors.go:120-126; the pair (value, found) is an option. *)
Definition IsHTTPError (err : error) : option (HTTPError.t error) :=
  As asHTTPError err.

(** errors.go:129-134. *)
Definition GetHTTPStatusCode (err : error) : Z :=
  match IsHTTPError err with
  | Some httpErr => HTTPError.StatusCode httpErr
  | None => 0
  end.

(** errors.go:273-285. *)
Definition IsTimeout (err : error) : bool :=
  match As asTimeoutError err with
  | Some _ => true
  | None =>
      match As asNetError err with
      | Some timeout => timeout
      | None => false
      end
  end.

(** errors.go:341-344. *)
Definition IsValidation (err : error) : bool :=
  match As asValidationError err with Some _ => true | None => false end.

(** errors.go:515-523. *)
Definition IsNetworkError (err : error) : bool :=
  match As asNetworkError err with
  | Some _ => true
  | None => match As asNetError err with Some _ => true | None => false end
  end.

(** errors.go:526-528. *)
Definition IsContextError (err : error) : bool :=
  Is err context_DeadlineExceeded || Is err context_Canceled.

(* ================================================================= *)
(** ** The classification entry points (retryable.go) *)

(** retryable.go:44-91. *)
Fixpoint IsRetryable (err : error) : bool :=
  if isNil err then false
  else if Is err context_DeadlineExceeded || Is err context_Canceled then false
  else
    match As (Retryable_IsRetryable IsRetryable) err with
    | Some verdict => verdict
    | None =>
        if Is err ErrRateLimited
           || Is err ErrNetworkTimeout
           || Is err ErrServerError
           || Is err ErrConnectionError
           || Is err ErrDeadlock
           || Is err ErrCircuitOpen
        then true
        else
          match IsHTTPError err with
          | Some httpErr => HTTPError_IsRetryable httpErr
          | None =>
              let errMsg := ToLower (Error err) in
              if Contains errMsg "rate limit" then true else false
          end
    end.

(** retryable.go:96-114. *)
Definition IsRetryableTimeout (err : error) : bool :=
  if isNil err then false
  else if Is err context_DeadlineExceeded then false
  else
    match As asTimeoutError err with
    | Some timeoutErr => TimeoutError_IsRetryable timeoutErr
    | None => Is err ErrNetworkTimeout
    end.

(** retryable.go:119-155. *)
Definition IsTransientError (err : error) : bool :=
  if isNil err then false
  else if IsContextError err then false
  else if IsNetworkError err then true
  else if Is err ErrRateLimited then true
  else if Is err ErrServerError then true
  else if Is err ErrConnectionError then true
  else if Is err ErrDeadlock then true
  else false.

(** retryable.go:160-186. *)
Definition IsPermanentError (err : error) : bool :=
  if isNil err then false
  else if IsValidation err then true
  else if IsContextError err then true
  else if Is err ErrCircuitOpen then true
  else
    match IsHTTPError err with
    | Some httpErr =>
        (HTTPError.StatusCode httpErr >=? 400)
        && (HTTPError.StatusCode httpErr <? 500)
        && negb (HTTPError.StatusCode httpErr =? 429)
    | None => false
    end.

(* ================================================================= *)
(** ** Field assignments

    An option mutates the struct it is applied to through a pointer; here an
    assignment [e.F = v] returns the struct with field [F] replaced. *)

Definition HTTPError_set_Err (v : error) (e : HTTPError.t error) : HTTPError.t error :=
  HTTPError.mk (HTTPError.StatusCode e) (HTTPError.Message e) (HTTPError.Component e) v.

Definition HTTPError_set_Message (v : string) (e : HTTPError.t error) : HTTPError.t error :=
  HTTPError.mk (HTTPError.StatusCode e) v (HTTPError.Component e) (HTTPError.Err e).

Definition HTTPError_set_StatusCode (v : Z) (e : HTTPError.t error) : HTTPError.t error :=
  HTTPError.mk v (HTTPError.Message e) (HTTPError.Component e) (HTTPError.Err e).

Definition HTTPError_set_Component (v : string) (e : HTTPError.t error) : HTTPError.t error :=
  HTTPError.mk (HTTPError.StatusCode e) (HTTPError.Message e) v (HTTPError.Err e).

Definition RateLimitError_set_Err (v : error) (e : RateLimitError.t error) : RateLimitError.t error :=
  RateLimitError.mk (RateLimitError.Message e) (RateLimitError.Operation e) (RateLimitError.Component e) (RateLimitError.RetryAfter e) v.

Definition RateLimitError_set_Message (v : string) (e : RateLimitError.t error) : RateLimitError.t error :=
  RateLimitError.mk v (RateLimitError.Operation e) (RateLimitError.Component e) (RateLimitError.RetryAfter e) (RateLimitError.Err e).

Definition RateLimitError_set_Operation (v : string) (e : RateLimitError.t error) : RateLimitError.t error :=
  RateLimitError.mk (RateLimitError.Message e) v (RateLimitError.Component e) (RateLimitError.RetryAfter e) (RateLimitError.Err e).

Definition RateLimitError_set_Component (v : string) (e : RateLimitError.t error) : RateLimitError.t error :=
  RateLimitError.mk (RateLimitError.Message e) (RateLimitError.Operation e) v (RateLimitError.RetryAfter e) (RateLimitError.Err e).

Definition RetryableError_set_Component (v : string) (e : RetryableError.t error) : RetryableError.t error :=
  RetryableError.mk (RetryableError.Message e) (RetryableError.Operation e) v (RetryableError.RetryAfter e) (RetryableError.Err e).

Definition TimeoutError_set_Err (v : error) (e : TimeoutError.t error) : TimeoutError.t error :=
  TimeoutError.mk (TimeoutError.Message e) (TimeoutError.Operation e) (TimeoutError.Component e) (TimeoutError.Duration e) v.

Definition TimeoutError_set_Message (v : string) (e : TimeoutError.t error) : TimeoutError.t error :=
  TimeoutError.mk v (TimeoutError.Operation e) (TimeoutError.Component e) (TimeoutError.Duration e) (TimeoutError.Err e).

Definition TimeoutError_set_Operation (v : string) (e : TimeoutError.t error) : TimeoutError.t error :=
  TimeoutError.mk (TimeoutError.Message e) v (TimeoutError.Component e) (TimeoutError.Duration e) (TimeoutError.Err e).

Definition TimeoutError_set_Component (v : string) (e : TimeoutError.t error) : TimeoutError.t error :=
  TimeoutError.mk (TimeoutError.Message e) (TimeoutError.Operation e) v (TimeoutError.Duration e) (TimeoutError.Err e).

Definition ValidationError_set_Err (v : error) (e : ValidationError.t error) : ValidationError.t error :=
  ValidationError.mk (ValidationError.Message e) (ValidationError.Field e) (ValidationError.Component e) (ValidationError.Value e) v.

Definition ValidationError_set_Message (v : string) (e : ValidationError.t error) : ValidationError.t error :=
  ValidationError.mk v (ValidationError.Field e) (ValidationError.Component e) (ValidationError.Value e) (ValidationError.Err e).

Definition ValidationError_set_Value (v : any) (e : ValidationError.t error) : ValidationError.t error :=
  ValidationError.mk (ValidationError.Message e) (ValidationError.Field e) (ValidationError.Component e) v (ValidationError.Err e).

Definition ValidationError_set_Field (v : string) (e : ValidationError.t error) : ValidationError.t error :=
  ValidationError.mk (ValidationError.Message e) v (ValidationError.Component e) (ValidationError.Value e) (ValidationError.Err e).

Definition ValidationError_set_Component (v : string) (e : ValidationError.t error) : ValidationError.t error :=
  ValidationError.mk (ValidationError.Message e) (ValidationError.Field e) v (ValidationError.Value e) (ValidationError.Err e).

Definition ProcessingError_set_Err (v : error) (e : ProcessingError.t error) : ProcessingError.t error :=
  ProcessingError.mk (ProcessingError.Message e) (ProcessingError.Operation e) (ProcessingError.ItemID e) (ProcessingError.Component e) (ProcessingError.Retryable e) v.

Definition ProcessingError_set_Message (v : string) (e : ProcessingError.t error) : ProcessingError.t error :=
  ProcessingError.mk v (ProcessingError.Operation e) (ProcessingError.ItemID e) (ProcessingError.Component e) (ProcessingError.Retryable e) (ProcessingError.Err e).

Definition ProcessingError_set_Operation (v : string) (e : ProcessingError.t error) : ProcessingError.t error :=
  ProcessingError.mk (ProcessingError.Message e) v (ProcessingError.ItemID e) (ProcessingError.Component e) (ProcessingError.Retryable e) (ProcessingError.Err e).

Definition ProcessingError_set_ItemID (v : string) (e : ProcessingError.t error) : ProcessingError.t error :=
  ProcessingError.mk (ProcessingError.Message e) (ProcessingError.Operation e) v (ProcessingError.Component e) (ProcessingError.Retryable e) (ProcessingError.Err e).

Definition ProcessingError_set_Retryable (v : bool) (e : ProcessingError.t error) : ProcessingError.t error :=
  ProcessingError.mk (ProcessingError.Message e) (ProcessingError.Operation e) (ProcessingError.ItemID e) (ProcessingError.Component e) v (ProcessingError.Err e).

Definition ProcessingError_set_Component (v : string) (e : ProcessingError.t error) : ProcessingError.t error :=
  ProcessingError.mk (ProcessingError.Message e) (ProcessingError.Operation e) (ProcessingError.ItemID e) v (ProcessingError.Retryable e) (ProcessingError.Err e).

Definition NetworkError_set_Err (v : error) (e : NetworkError.t error) : NetworkError.t error :=
  NetworkError.mk (NetworkError.Message e) (NetworkError.Operation e) (NetworkError.Component e) (NetworkError.IsTransient e) v.

Definition NetworkError_set_Message (v : string) (e : NetworkError.t error) : NetworkError.t error :=
  NetworkError.mk v (NetworkError.Operation e) (NetworkError.Component e) (NetworkError.IsTransient e) (NetworkError.Err e).

Definition NetworkError_set_Operation (v : string) (e : NetworkError.t error) : NetworkError.t error :=
  NetworkError.mk (NetworkError.Message e) v (NetworkError.Component e) (NetworkError.IsTransient e) (NetworkError.Err e).

Definition NetworkError_set_IsTransient (v : bool) (e : NetworkError.t error) : NetworkError.t error :=
  NetworkError.mk (NetworkError.Message e) (NetworkError.Operation e) (NetworkError.Component e) v (NetworkError.Err e).

Definition NetworkError_set_Component (v : string) (e : NetworkError.t error) : NetworkError.t error :=
  NetworkError.mk (NetworkError.Message e) (NetworkError.Operation e) v (NetworkError.IsTransient e) (NetworkError.Err e).

Definition CircuitBreakerError_set_Err (v : error) (e : CircuitBreakerError.t error) : CircuitBreakerError.t error :=
  CircuitBreakerError.mk (CircuitBreakerError.Message e) (CircuitBreakerError.Operation e) (CircuitBreakerError.Component e) (CircuitBreakerError.State e) v (CircuitBreakerError.Counts e).

Definition CircuitBreakerError_set_Message (v : string) (e : CircuitBreakerError.t error) : CircuitBreakerError.t error :=
  CircuitBreakerError.mk v (CircuitBreakerError.Operation e) (CircuitBreakerError.Component e) (CircuitBreakerError.State e) (CircuitBreakerError.Err e) (CircuitBreakerError.Counts e).

Definition CircuitBreakerError_set_Operation (v : string) (e : CircuitBreakerError.t error) : CircuitBreakerError.t error :=
  CircuitBreakerError.mk (CircuitBreakerError.Message e) v (CircuitBreakerError.Component e) (CircuitBreakerError.State e) (CircuitBreakerError.Err e) (CircuitBreakerError.Counts e).

Definition CircuitBreakerError_set_State (v : string) (e : CircuitBreakerError.t error) : CircuitBreakerError.t error :=
  CircuitBreakerError.mk (CircuitBreakerError.Message e) (CircuitBreakerError.Operation e) (CircuitBreakerError.Component e) v (CircuitBreakerError.Err e) (CircuitBreakerError.Counts e).

Definition CircuitBreakerError_set_Component (v : string) (e : CircuitBreakerError.t error) : CircuitBreakerError.t error :=
  CircuitBreakerError.mk (CircuitBreakerError.Message e) (CircuitBreakerError.Operation e) v (CircuitBreakerError.State e) (CircuitBreakerError.Err e) (CircuitBreakerError.Counts e).

Definition CircuitBreakerError_set_Counts (v : CircuitCounts.t) (e : CircuitBreakerError.t error) : CircuitBreakerError.t error :=
  CircuitBreakerError.mk (CircuitBreakerError.Message e) (CircuitBreakerError.Operation e) (CircuitBreakerError.Component e) (CircuitBreakerError.State e) (CircuitBreakerError.Err e) v.

Definition RetryError_set_Component (v : string) (e : RetryError.t error) : RetryError.t error :=
  RetryError.mk (RetryError.Attempts e) (RetryError.MaxAttempts e) (RetryError.LastError e) (RetryError.AllErrors e) (RetryError.Operation e) v.

(* ================================================================= *)
(** ** Functional options (options.go) *)

(** options.go:12.  The option receives the struct under construction and
    returns it after its assignment, if any. *)
Definition Option : Type := error -> error.

(** options.go:22-41. *)
Definition WithCause (cause : error) : Option :=
  fun err =>
    match err with
    | EHTTP e => EHTTP (HTTPError_set_Err cause e)
    | EValidation e => EValidation (ValidationError_set_Err cause e)
    | ETimeout e => ETimeout (TimeoutError_set_Err cause e)
    | ERateLimit e => ERateLimit (RateLimitError_set_Err cause e)
    | EProcessing e => EProcessing (ProcessingError_set_Err cause e)
    | ENetwork e => ENetwork (NetworkError_set_Err cause e)
    | ECircuitBreaker e => ECircuitBreaker (CircuitBreakerError_set_Err cause e)
    | _ => err
    end.

(** options.go:50-56. *)
Definition WithRetryable (retryable : bool) : Option :=
  fun err =>
    match err with
    | EProcessing e => EProcessing (ProcessingError_set_Retryable retryable e)
    | _ => err
    end.

(** options.go:65-71. *)
Definition WithItemID (itemID : string) : Option :=
  fun err =>
    match err with
    | EProcessing e => EProcessing (ProcessingError_set_ItemID itemID e)
    | _ => err
    end.

(** options.go:80-86. *)
Definition WithValue (value : any) : Option :=
  fun err =>
    match err with
    | EValidation e => EValidation (ValidationError_set_Value value e)
    | _ => err
    end.

(** options.go:94-109. *)
Definition WithOperation (operation : string) : Option :=
  fun err =>
    match err with
    | ETimeout e => ETimeout (TimeoutError_set_Operation operation e)
    | ERateLimit e => ERateLimit (RateLimitError_set_Operation operation e)
    | EProcessing e => EProcessing (ProcessingError_set_Operation operation e)
    | ENetwork e => ENetwork (NetworkError_set_Operation operation e)
    | ECircuitBreaker e => ECircuitBreaker (CircuitBreakerError_set_Operation operation e)
    | _ => err
    end.

(** options.go:118-137. *)
Definition WithMessage (message : string) : Option :=
  fun err =>
    match err with
    | EHTTP e => EHTTP (HTTPError_set_Message message e)
    | EValidation e => EValidation (ValidationError_set_Message message e)
    | ETimeout e => ETimeout (TimeoutError_set_Message message e)
    | ERateLimit e => ERateLimit (RateLimitError_set_Message message e)
    | EProcessing e => EProcessing (ProcessingError_set_Message message e)
    | ENetwork e => ENetwork (NetworkError_set_Message message e)
    | ECircuitBreaker e => ECircuitBreaker (CircuitBreakerError_set_Message message e)
    | _ => err
    end.

(** options.go:146-152. *)
Definition WithStatusCode (statusCode : Z) : Option :=
  fun err =>
    match err with
    | EHTTP e => EHTTP (HTTPError_set_StatusCode statusCode e)
    | _ => err
    end.

(** options.go:161-167. *)
Definition WithField (field : string) : Option :=
  fun err =>
    match err with
    | EValidation e => EValidation (ValidationError_set_Field field e)
    | _ => err
    end.

(** options.go:176-182. *)
Definition WithTransient (transient : bool) : Option :=
  fun err =>
    match err with
    | ENetwork e => ENetwork (NetworkError_set_IsTransient transient e)
    | _ => err
    end.

(** options.go:191-197. *)
Definition WithState (state : string) : Option :=
  fun err =>
    match err with
    | ECircuitBreaker e => ECircuitBreaker (CircuitBreakerError_set_State state e)
    | _ => err
    end.

(** Modelled from the spec: [WithComponent] is not defined in options.go
    (the tests of resilience.go call it).  The spec lists it as
    "set-component (variants with a component field)"; each of the nine
    structs declares a [Component] field. *)
Definition WithComponent (component : string) : Option :=
  fun err =>
    match err with
    | EHTTP e => EHTTP (HTTPError_set_Component component e)
    | ERateLimit e => ERateLimit (RateLimitError_set_Component component e)
    | ERetryable e => ERetryable (RetryableError_set_Component component e)
    | ETimeout e => ETimeout (TimeoutError_set_Component component e)
    | EValidation e => EValidation (ValidationError_set_Component component e)
    | EProcessing e => EProcessing (ProcessingError_set_Component component e)
    | ENetwork e => ENetwork (NetworkError_set_Component component e)
    | ECircuitBreaker e => ECircuitBreaker (CircuitBreakerError_set_Component component e)
    | ERetry e => ERetry (RetryError_set_Component component e)
    | _ => err
    end.

(** Modelled from the spec: [WithCounts] is not defined in options.go (the
    tests of resilience.go call it).  The spec lists it as "set-counts
    (CircuitBreaker only, carries observability counters mirroring a circuit
    breaker's request/success/failure tallies)". *)
Definition WithCounts (counts : CircuitCounts.t) : Option :=
  fun err =>
    match err with
    | ECircuitBreaker e => ECircuitBreaker (CircuitBreakerError_set_Counts counts e)
    | _ => err
    end.

(** [for _, opt := range opts { opt(err) }]. *)
Definition applyOptions (err : error) (opts : list Option) : error :=
  fold_left (fun e opt => opt e) opts err.

(* ================================================================= *)
(** ** Constructors *)

(** errors.go:110-117. *)
Definition NewHTTPError (statusCode : Z) (message : string) (cause : error) : error :=
  EHTTP (HTTPError.mk statusCode message "" cause).

(** errors.go:169-179. *)
Definition NewRateLimitError (message operation : string) (retryAfter : Z)
           (opts : list Option) : error :=
  applyOptions (ERateLimit (RateLimitError.mk message operation "" retryAfter NoError)) opts.

(** errors.go:215-225. *)
Definition NewRetryableError (message operation : string) (retryAfter : Z)
           (opts : list Option) : error :=
  applyOptions (ERetryable (RetryableError.mk message operation "" retryAfter NoError)) opts.

(** errors.go:260-270. *)
Definition NewTimeoutError (message operation : string) (duration : Z)
           (opts : list Option) : error :=
  applyOptions (ETimeout (TimeoutError.mk message operation "" duration NoError)) opts.

(** errors.go:329-338. *)
Definition NewValidationError (message field : string) (opts : list Option) : error :=
  applyOptions (EValidation (ValidationError.mk message field "" AnyNil NoError)) opts.

(** errors.go:400-410. *)
Definition NewProcessingError (message operation : string) (opts : list Option) : error :=
  applyOptions (EProcessing (ProcessingError.mk message operation "" "" false NoError)) opts.

(** errors.go:413-416. *)
Definition NewRetryableProcessingError (message operation : string)
           (opts : list Option) : error :=
  let allOpts := ([WithRetryable true] ++ opts)%list in
  NewProcessingError message operation allOpts.

(** errors.go:456-466. *)
Definition NewNetworkError (message operation : string) (opts : list Option) : error :=
  applyOptions (ENetwork (NetworkError.mk message operation "" true NoError)) opts.

(** errors.go:502-512. *)
Definition NewCircuitBreakerError (message operation state : string)
           (opts : list Option) : error :=
  applyOptions
    (ECircuitBreaker
       (CircuitBreakerError.mk message operation "" state NoError CircuitCounts.zero))
    opts.

(** errors.go:532-534. *)
Definition NewInternalError (message : string) (cause : error) : error :=
  NewHTTPError 500 message cause.

(** resilience.go:77-88. *)
Definition NewRetryError (attempts maxAttempts : Z) (lastError : error)
           (allErrors : list error) (opts : list Option) : error :=
  applyOptions (ERetry (RetryError.mk attempts maxAttempts lastError allErrors "" "")) opts.

(* ================================================================= *)
(** ** Formatting and introspection for logging *)

(** [strings.Join]. *)
Fixpoint Join (elems : list string) (sep : string) : string :=
  match elems with
  | [] => ""
  | [s] => s
  | s :: rest => s ++ sep ++ Join rest sep
  end.

(** [FormatError] (the file of the stack-trace and logging helpers): a label
    for the dynamic type of the error itself, then its message, joined by
    ": ".  The type switch does not look into the chain, and has no case for
    [*RetryableError] or [*RetryError]. *)
Definition FormatError (err : error) : string :=
  if isNil err then ""
  else
    let parts : list string := [] in
    let parts :=
      match err with
      | EHTTP e =>
          app parts ["HTTPError(" ++ fmt_d (HTTPError.StatusCode e) ++ ")"]
      | EValidation e =>
          app parts ["ValidationError(" ++ ValidationError.Field e ++ ")"]
      | ETimeout e =>
          app parts ["TimeoutError(" ++ Duration_String (TimeoutError.Duration e)
                                     ++ ")"]
      | ERateLimit e =>
          app parts ["RateLimitError("
                       ++ Duration_String (RateLimitError.RetryAfter e) ++ ")"]
      | EProcessing e =>
          let retryable :=
            if ProcessingError_IsRetryable IsRetryable e
            then "retryable" else "not retryable" in
          app parts ["ProcessingError(" ++ retryable ++ ")"]
      | ENetwork e =>
          let transient :=
            if NetworkError.IsTransient e then "transient" else "persistent" in
          app parts ["NetworkError(" ++ transient ++ ")"]
      | ECircuitBreaker e =>
          app parts ["CircuitBreakerError(" ++ CircuitBreakerError.State e
                                            ++ ")"]
      | _ => app parts ["Error"]
      end in
    let parts := app parts [Error err] in
    Join parts ": ".

(** [ExtractErrorInfo] (same file): the [map[string]any] it fills, or [None]
    for the nil map it returns on a nil error.  The values are a string, a boolean, an
    integer or the [Value] of a validation error, all values of [any]. *)
Definition ExtractErrorInfo (err : error) : option (gmap string any) :=
  if isNil err then None
  else
    let info : gmap string any := ∅ in
    let info := <["message" := AnyString (Error err)]> info in
    let info := <["retryable" := AnyBool (IsRetryable err)]> info in
    Some
      match err with
      | EHTTP e =>
          let info := <["type" := AnyString "HTTPError"]> info in
          <["status_code" := AnyInt (HTTPError.StatusCode e)]> info
      | EValidation e =>
          let info := <["type" := AnyString "ValidationError"]> info in
          let info := <["field" := AnyString (ValidationError.Field e)]> info in
          match ValidationError.Value e with
          | AnyNil => info
          | value => <["value" := value]> info
          end
      | ETimeout e =>
          let info := <["type" := AnyString "TimeoutError"]> info in
          let info := <["operation" := AnyString (TimeoutError.Operation e)]> info in
          <["duration" := AnyString (Duration_String (TimeoutError.Duration e))]> info
      | ERateLimit e =>
          let info := <["type" := AnyString "RateLimitError"]> info in
          let info := <["operation" := AnyString (RateLimitError.Operation e)]> info in
          <["retry_after" :=
              AnyString (Duration_String (RateLimitError.RetryAfter e))]> info
      | EProcessing e =>
          let info := <["type" := AnyString "ProcessingError"]> info in
          let info := <["operation" := AnyString (ProcessingError.Operation e)]> info in
          if nonEmpty (ProcessingError.ItemID e)
          then <["item_id" := AnyString (ProcessingError.ItemID e)]> info
          else info
      | ENetwork e =>
          let info := <["type" := AnyString "NetworkError"]> info in
          let info := <["operation" := AnyString (NetworkError.Operation e)]> info in
          <["transient" := AnyBool (NetworkError.IsTransient e)]> info
      | ECircuitBreaker e =>
          let info := <["type" := AnyString "CircuitBreakerError"]> info in
          let info :=
            <["operation" := AnyString (CircuitBreakerError.Operation e)]> info in
          <["state" := AnyString (CircuitBreakerError.State e)]> info
      | _ => <["type" := AnyString "Error"]> info
      end.

(* ================================================================= *)
(** ** Definitions used in the statements *)

(** *** Chains as lists *)

(** The first value of a list the target accepts. *)
Fixpoint firstAccepted {T : Type} (target : error -> option T) (l : list error)
  : option T :=
  match l with
  | [] => None
  | e :: l' =>
      match target e with
      | Some v => Some v
      | None => firstAccepted target l'
      end
  end.

(** *** Inputs of the examples *)

(** Thirty seconds, as a [time.Duration]. *)
Definition seconds30 : Z := 30 * 1000000000.

(** Scenario A of the spec with one more wrap layer on each side: a
    [TimeoutError], whose own method answers true, over a wrapped
    deadline-exceeded condition. *)
Definition timeoutOverDeadline : error :=
  Wrap (NewTimeoutError "op timed out" "Fetch" seconds30
          [WithCause (Wrap (Sentinel context_DeadlineExceeded) "read body")])
       "fetch failed".

(** A [TimeoutError] whose cause is the canceled condition. *)
Definition timeoutOverCanceled : error :=
  NewTimeoutError "request dropped" "Fetch" seconds30
    [WithCause (Sentinel context_Canceled)].

(** A retryable-by-default [TimeoutError] whose cause is a
    [ValidationError]. *)
Definition timeoutOverValidation : error :=
  NewTimeoutError "lookup timed out" "Resolve" seconds30
    [WithCause (NewValidationError "must not be empty" "host" [])].


(** A [RateLimitError] with a cause of its own. *)
Definition rateLimitedUpstream : error :=
  NewRateLimitError "rate limited" "op" (2 * seconds30)
    [WithCause (Wrap (Sentinel ErrServerError) "upstream")].

(** The first case of the tests of resilience.go: three attempts, the last
    error a connection timeout. *)
Definition exhaustedRetry : error :=
  NewRetryError 3 3 (Leaf "connection timeout")
    [Leaf "err1"; Leaf "err2"; Leaf "connection timeout"] [].

(** The counters of the tests of resilience.go. *)
Definition someCounts : CircuitCounts.t := CircuitCounts.mk 50 0 10 0 3.

(** *** The capability along the chain *)

(** Does the dynamic type of the error have an [IsRetryable] method? *)
Definition exposesRetryable (err : error) : bool :=
  match Retryable_IsRetryable IsRetryable err with
  | Some _ => true
  | None => false
  end.

(** The errors of the chain that expose the capability, outermost first. *)
Definition retryables (err : error) : list error :=
  filter exposesRetryable (chain err).

(** *** Reading fields back *)

(** The cause field [Err] of the eight structs that declare one. *)
Definition Err_field (err : error) : option error :=
  match err with
  | EHTTP e => Some (HTTPError.Err e)
  | ERateLimit e => Some (RateLimitError.Err e)
  | ERetryable e => Some (RetryableError.Err e)
  | ETimeout e => Some (TimeoutError.Err e)
  | EValidation e => Some (ValidationError.Err e)
  | EProcessing e => Some (ProcessingError.Err e)
  | ENetwork e => Some (NetworkError.Err e)
  | ECircuitBreaker e => Some (CircuitBreakerError.Err e)
  | _ => None
  end.

(** *** Wrap layers over a sentinel *)

(** [msgs] wrap layers, the first of the list innermost. *)
Definition wrapAll (err : error) (msgs : list string) : error :=
  fold_left Wrap msgs err.

(** retryable.go:67-72: the sentinels [IsRetryable] looks for. *)
Definition retryableSentinel (s : sentinel) : bool :=
  match s with
  | ErrRateLimited | ErrNetworkTimeout | ErrServerError
  | ErrConnectionError | ErrDeadlock | ErrCircuitOpen => true
  | _ => false
  end.

(** retryable.go:135-152: the sentinels [IsTransientError] looks for. *)
Definition transientSentinel (s : sentinel) : bool :=
  match s with
  | ErrRateLimited | ErrServerError | ErrConnectionError | ErrDeadlock => true
  | _ => false
  end.

(** A sentinel under wrap layers only. *)
Inductive WrapsOver (s : sentinel) : error -> Prop :=
| WrapsOver_sentinel : WrapsOver s (Sentinel s)
| WrapsOver_layer (msg : string) (err : error) :
    WrapsOver s err -> WrapsOver s (Wrapped msg err).

(** *** Adjustments and their targets *)

(** The nine variants. *)
Inductive variant : Type :=
| VHTTP | VRateLimit | VRetryable | VTimeout | VValidation
| VProcessing | VNetwork | VCircuitBreaker | VRetry.

Definition variant_eqb (a b : variant) : bool :=
  match a, b with
  | VHTTP, VHTTP | VRateLimit, VRateLimit | VRetryable, VRetryable
  | VTimeout, VTimeout | VValidation, VValidation | VProcessing, VProcessing
  | VNetwork, VNetwork | VCircuitBreaker, VCircuitBreaker | VRetry, VRetry => true
  | _, _ => false
  end.

Definition variantOf (err : error) : option variant :=
  match err with
  | EHTTP _ => Some VHTTP
  | ERateLimit _ => Some VRateLimit
  | ERetryable _ => Some VRetryable
  | ETimeout _ => Some VTimeout
  | EValidation _ => Some VValidation
  | EProcessing _ => Some VProcessing
  | ENetwork _ => Some VNetwork
  | ECircuitBreaker _ => Some VCircuitBreaker
  | ERetry _ => Some VRetry
  | _ => None
  end.

(** Reading a field back, [None] where the struct does not declare it. *)
Definition Message_field (err : error) : option string :=
  match err with
  | EHTTP e => Some (HTTPError.Message e)
  | ERateLimit e => Some (RateLimitError.Message e)
  | ERetryable e => Some (RetryableError.Message e)
  | ETimeout e => Some (TimeoutError.Message e)
  | EValidation e => Some (ValidationError.Message e)
  | EProcessing e => Some (ProcessingError.Message e)
  | ENetwork e => Some (NetworkError.Message e)
  | ECircuitBreaker e => Some (CircuitBreakerError.Message e)
  | _ => None
  end.

Definition Operation_field (err : error) : option string :=
  match err with
  | ERateLimit e => Some (RateLimitError.Operation e)
  | ERetryable e => Some (RetryableError.Operation e)
  | ETimeout e => Some (TimeoutError.Operation e)
  | EProcessing e => Some (ProcessingError.Operation e)
  | ENetwork e => Some (NetworkError.Operation e)
  | ECircuitBreaker e => Some (CircuitBreakerError.Operation e)
  | ERetry e => Some (RetryError.Operation e)
  | _ => None
  end.

Definition Component_field (err : error) : option string :=
  match err with
  | EHTTP e => Some (HTTPError.Component e)
  | ERateLimit e => Some (RateLimitError.Component e)
  | ERetryable e => Some (RetryableError.Component e)
  | ETimeout e => Some (TimeoutError.Component e)
  | EValidation e => Some (ValidationError.Component e)
  | EProcessing e => Some (ProcessingError.Component e)
  | ENetwork e => Some (NetworkError.Component e)
  | ECircuitBreaker e => Some (CircuitBreakerError.Component e)
  | ERetry e => Some (RetryError.Component e)
  | _ => None
  end.

Definition ItemID_field (err : error) : option string :=
  match err with EProcessing e => Some (ProcessingError.ItemID e) | _ => None end.

Definition Retryable_field (err : error) : option bool :=
  match err with EProcessing e => Some (ProcessingError.Retryable e) | _ => None end.

Definition Value_field (err : error) : option any :=
  match err with EValidation e => Some (ValidationError.Value e) | _ => None end.

Definition Field_field (err : error) : option string :=
  match err with EValidation e => Some (ValidationError.Field e) | _ => None end.

Definition IsTransient_field (err : error) : option bool :=
  match err with ENetwork e => Some (NetworkError.IsTransient e) | _ => None end.

Definition State_field (err : error) : option string :=
  match err with ECircuitBreaker e => Some (CircuitBreakerError.State e) | _ => None end.

Definition StatusCode_field (err : error) : option Z :=
  match err with EHTTP e => Some (HTTPError.StatusCode e) | _ => None end.

Definition Counts_field (err : error) : option CircuitCounts.t :=
  match err with ECircuitBreaker e => Some (CircuitBreakerError.Counts e) | _ => None end.

(** The twelve adjustments of the spec's enumeration, each with the value it
    carries. *)
Inductive adjustment : Type :=
| SetCause (cause : error)
| SetMessage (message : string)
| SetOperation (operation : string)
| SetItemID (itemID : string)
| SetRetryableFlag (retryable : bool)
| SetValue (value : any)
| SetField (field : string)
| SetTransientFlag (transient : bool)
| SetState (state : string)
| SetStatusCode (statusCode : Z)
| SetComponent (component : string)
| SetCounts (counts : CircuitCounts.t).

(** The option of options.go that implements an adjustment ([WithComponent]
    and [WithCounts] as modelled above). *)
Definition optionOf (a : adjustment) : Option :=
  match a with
  | SetCause cause => WithCause cause
  | SetMessage message => WithMessage message
  | SetOperation operation => WithOperation operation
  | SetItemID itemID => WithItemID itemID
  | SetRetryableFlag retryable => WithRetryable retryable
  | SetValue value => WithValue value
  | SetField field => WithField field
  | SetTransientFlag transient => WithTransient transient
  | SetState state => WithState state
  | SetStatusCode statusCode => WithStatusCode statusCode
  | SetComponent component => WithComponent component
  | SetCounts counts => WithCounts counts
  end.

(** The variants an adjustment targets: the structs its option has a case
    for (options.go, and the spec's enumeration for the two modelled
    options). *)
Definition targets (a : adjustment) : list variant :=
  match a with
  | SetCause _ | SetMessage _ =>
      [VHTTP; VValidation; VTimeout; VRateLimit; VProcessing; VNetwork;
       VCircuitBreaker]
  | SetOperation _ => [VTimeout; VRateLimit; VProcessing; VNetwork; VCircuitBreaker]
  | SetItemID _ | SetRetryableFlag _ => [VProcessing]
  | SetValue _ | SetField _ => [VValidation]
  | SetTransientFlag _ => [VNetwork]
  | SetState _ | SetCounts _ => [VCircuitBreaker]
  | SetStatusCode _ => [VHTTP]
  | SetComponent _ =>
      [VHTTP; VRateLimit; VRetryable; VTimeout; VValidation; VProcessing;
       VNetwork; VCircuitBreaker; VRetry]
  end.

Definition targeted (a : adjustment) (err : error) : bool :=
  match variantOf err with
  | Some v => existsb (variant_eqb v) (targets a)
  | None => false
  end.

(** The field an adjustment configures reads back the value it carries. *)
Definition assigned (a : adjustment) (err : error) : Prop :=
  match a with
  | SetCause cause => Err_field err = Some cause
  | SetMessage message => Message_field err = Some message
  | SetOperation operation => Operation_field err = Some operation
  | SetItemID itemID => ItemID_field err = Some itemID
  | SetRetryableFlag retryable => Retryable_field err = Some retryable
  | SetValue value => Value_field err = Some value
  | SetField field => Field_field err = Some field
  | SetTransientFlag transient => IsTransient_field err = Some transient
  | SetState state => State_field err = Some state
  | SetStatusCode statusCode => StatusCode_field err = Some statusCode
  | SetComponent component => Component_field err = Some component
  | SetCounts counts => Counts_field err = Some counts
  end.

Definition present {V : Type} (o : option V) : bool :=
  match o with Some _ => true | None => false end.

(** Does the struct of the error declare the field the adjustment assigns?
    Read off the struct declarations of errors.go and resilience.go (with
    the modelled [Counts]). *)
Definition declaresField (a : adjustment) (err : error) : bool :=
  match a with
  | SetCause _ => present (Err_field err)
  | SetMessage _ => present (Message_field err)
  | SetOperation _ => present (Operation_field err)
  | SetItemID _ => present (ItemID_field err)
  | SetRetryableFlag _ => present (Retryable_field err)
  | SetValue _ => present (Value_field err)
  | SetField _ => present (Field_field err)
  | SetTransientFlag _ => present (IsTransient_field err)
  | SetState _ => present (State_field err)
  | SetStatusCode _ => present (StatusCode_field err)
  | SetComponent _ => present (Component_field err)
  | SetCounts _ => present (Counts_field err)
  end.

(** *** Options in sequence *)

(** The ten adjustments that options.go implements. *)
Definition declaredInOptionsGo (a : adjustment) : bool :=
  match a with
  | SetComponent _ | SetCounts _ => false
  | _ => true
  end.

(** Two adjustments of the same kind: the same option function, whatever
    the values they carry. *)
Definition sameKind (a b : adjustment) : bool :=
  match a, b with
  | SetCause _, SetCause _ | SetMessage _, SetMessage _
  | SetOperation _, SetOperation _ | SetItemID _, SetItemID _
  | SetRetryableFlag _, SetRetryableFlag _ | SetValue _, SetValue _
  | SetField _, SetField _ | SetTransientFlag _, SetTransientFlag _
  | SetState _, SetState _ | SetStatusCode _, SetStatusCode _
  | SetComponent _, SetComponent _ | SetCounts _, SetCounts _ => true
  | _, _ => false
  end.

(** The value carried by the last adjustment of a list that [select]
    recognises, [default] when there is none. *)
Fixpoint lastCarried {V : Type} (select : adjustment -> option V)
         (adjs : list adjustment) (default : V) : V :=
  match adjs with
  | [] => default
  | a :: rest =>
      match select a with
      | Some v => lastCarried select rest v
      | None => lastCarried select rest default
      end
  end.

Definition carriedRetryable (a : adjustment) : option bool :=
  match a with SetRetryableFlag retryable => Some retryable | _ => None end.

Definition carriedTransient (a : adjustment) : option bool :=
  match a with SetTransientFlag transient => Some transient | _ => None end.

Definition carriedCause (a : adjustment) : option error :=
  match a with SetCause cause => Some cause | _ => None end.

(** *** Labels of the logging helpers *)

(** The type names [ExtractErrorInfo] can report. *)
Definition typeNames : list string :=
  ["HTTPError"; "ValidationError"; "TimeoutError"; "RateLimitError";
   "ProcessingError"; "NetworkError"; "CircuitBreakerError"; "Error"].

(** The seven struct types the type switches of [FormatError] and
    [ExtractErrorInfo] have a case for. *)
Definition listedType (err : error) : bool :=
  match err with
  | EHTTP _ | EValidation _ | ETimeout _ | ERateLimit _ | EProcessing _
  | ENetwork _ | ECircuitBreaker _ => true
  | _ => false
  end.

(* ================================================================= *)
(** ** Facts about chains *)

Lemma chain_Unwrap (err : error) :
  err <> NoError -> chain err = err :: chain (Unwrap err).
Proof.
  destruct err; intros H; try reflexivity.
  contradiction H; reflexivity.
Qed.

Lemma chain_nil_iff (err : error) : chain err = [] <-> err = NoError.
Proof.
  split.
  - destruct err; simpl; intros H; try discriminate H; reflexivity.
  - intros ->; reflexivity.
Qed.

(** Induction along the chain: from the cause to the error. *)
Lemma chain_induction (P : error -> Prop) :
  P NoError ->
  (forall err, err <> NoError -> P (Unwrap err) -> P err) ->
  forall err, P err.
Proof.
  intros Hnil Hstep.
  assert (Hlen : forall n err, (List.length (chain err) <= n)%nat -> P err).
  { induction n as [|n IH]; intros err Hle.
    - destruct (chain err) eqn:Hc.
      + apply chain_nil_iff in Hc. subst err. exact Hnil.
      + simpl in Hle. lia.
    - destruct err eqn:He; try exact Hnil; rewrite <- He in *;
        (apply Hstep; [ rewrite He; discriminate
                      | apply IH; rewrite chain_Unwrap in Hle
                          by (rewrite He; discriminate);
                        simpl in Hle; lia ]). }
  intros err. apply (Hlen (List.length (chain err))). apply Nat.le_refl.
Qed.

(** [errors.As] walks the chain through [Unwrap]. *)
Lemma As_unfold {T : Type} (target : error -> option T) (err : error) :
  As target err =
  if isNil err then None
  else match target err with
       | Some v => Some v
       | None => As target (Unwrap err)
       end.
Proof.
  destruct err; simpl; try reflexivity;
    try (destruct (target _); reflexivity).
  destruct (target (ERetry e)); try reflexivity.
  destruct (target (Sentinel ErrRetryExhausted)); reflexivity.
Qed.

Lemma As_chain {T : Type} (target : error -> option T) (err : error) :
  As target err = firstAccepted target (chain err).
Proof.
  induction err as [|err Hnn IH] using chain_induction.
  - reflexivity.
  - rewrite As_unfold, (chain_Unwrap Hnn). simpl.
    destruct err; try (contradiction Hnn; reflexivity); simpl isNil; cbv iota;
      rewrite IH; reflexivity.
Qed.

Lemma sentinel_eqb_eq (a b : sentinel) : sentinel_eqb a b = true <-> a = b.
Proof.
  split.
  - destruct a, b; simpl; intros H; try discriminate H; reflexivity.
  - intros ->. destruct b; reflexivity.
Qed.

Lemma sentinel_eqb_refl (s : sentinel) : sentinel_eqb s s = true.
Proof. destruct s; reflexivity. Qed.

Lemma Is_unfold (err : error) (reference : sentinel) :
  Is err reference =
  match err with
  | NoError => false
  | Sentinel s => sentinel_eqb s reference
  | _ => Is (Unwrap err) reference
  end.
Proof.
  unfold Is. rewrite As_unfold.
  destruct err; simpl; try reflexivity.
  destruct (sentinel_eqb s reference); reflexivity.
Qed.

(** [Is] says that the sentinel is a member of the chain. *)
Lemma Is_In_chain (err : error) (reference : sentinel) :
  Is err reference = true <-> In (Sentinel reference) (chain err).
Proof.
  induction err as [|err Hnn IH] using chain_induction.
  - simpl. split; [discriminate | intros []].
  - rewrite Is_unfold, (chain_Unwrap Hnn). simpl.
    destruct err; try (contradiction Hnn; reflexivity);
      try (rewrite IH; split;
           [ intros H; right; exact H
           | intros [H|H]; [discriminate H | exact H] ]).
    rewrite sentinel_eqb_eq. simpl. split.
    + intros ->. left. reflexivity.
    + intros [H|[]]. injection H as ->. reflexivity.
Qed.

(** A sentinel has no cause, so a chain holds at most one sentinel. *)
Lemma Is_unique (err : error) (s1 s2 : sentinel) :
  Is err s1 = true -> Is err s2 = true -> s1 = s2.
Proof.
  induction err as [|err Hnn IH] using chain_induction.
  - discriminate.
  - rewrite (Is_unfold err s1), (Is_unfold err s2).
    destruct err; try (contradiction Hnn; reflexivity); try exact IH.
    intros H1 H2. apply sentinel_eqb_eq in H1, H2. congruence.
Qed.

(** The definition of [IsRetryable], one step unfolded. *)
Lemma IsRetryable_unfold (err : error) :
  IsRetryable err =
  if isNil err then false
  else if Is err context_DeadlineExceeded || Is err context_Canceled then false
  else
    match As (Retryable_IsRetryable IsRetryable) err with
    | Some verdict => verdict
    | None =>
        if Is err ErrRateLimited || Is err ErrNetworkTimeout
           || Is err ErrServerError || Is err ErrConnectionError
           || Is err ErrDeadlock || Is err ErrCircuitOpen
        then true
        else
          match IsHTTPError err with
          | Some httpErr => HTTPError_IsRetryable httpErr
          | None =>
              if Contains (ToLower (Error err)) "rate limit" then true else false
          end
    end.
Proof. destruct err; reflexivity. Qed.

Lemma Is_nil (reference : sentinel) : Is NoError reference = false.
Proof. reflexivity. Qed.

Lemma Is_not_nil (err : error) (reference : sentinel) :
  Is err reference = true -> isNil err = false.
Proof. destruct err; [discriminate | reflexivity ..]. Qed.

(** A wrap layer leaves the sentinels of the chain in place. *)
Lemma Is_Wrap (err : error) (msg : string) (reference : sentinel) :
  Is (Wrap err msg) reference = Is err reference.
Proof. destruct err; reflexivity. Qed.

Lemma IsContextError_cases (err : error) :
  Is err context_DeadlineExceeded = true \/ Is err context_Canceled = true ->
  IsContextError err = true /\ isNil err = false.
Proof.
  unfold IsContextError.
  intros [H|H]; rewrite H; split;
    solve [ reflexivity | apply orb_true_r | exact (Is_not_nil _ _ H) ].
Qed.

(** The three entry points that test both abandonment conditions. *)
Lemma IsRetryable_abandoned (err : error) :
  IsContextError err = true -> IsRetryable err = false.
Proof.
  intros H. rewrite IsRetryable_unfold.
  destruct (isNil err); [reflexivity|].
  unfold IsContextError in H. rewrite H. reflexivity.
Qed.

Lemma IsTransientError_abandoned (err : error) :
  IsContextError err = true -> IsTransientError err = false.
Proof.
  intros H. unfold IsTransientError. rewrite H.
  destruct (isNil err); reflexivity.
Qed.

Lemma IsPermanentError_abandoned (err : error) :
  isNil err = false -> IsContextError err = true -> IsPermanentError err = true.
Proof.
  intros Hnn H. unfold IsPermanentError. rewrite Hnn, H.
  destruct (IsValidation err); reflexivity.
Qed.

Lemma IsRetryableTimeout_deadline (err : error) :
  Is err context_DeadlineExceeded = true -> IsRetryableTimeout err = false.
Proof.
  intros H. unfold IsRetryableTimeout. rewrite H.
  destruct (isNil err); reflexivity.
Qed.

(* ================================================================= *)
(** ** Context abandonment *)

(** C1.  An error whose chain contains the deadline-exceeded or the canceled
    condition, at whatever depth, is not retryable and is permanent.  This
    holds whatever the errors of the chain report about themselves: the
    abandonment test of [IsRetryable] comes before the lookup of the
    [Retryable] capability. *)
Theorem abandonment_not_retryable_and_permanent (err : error) :
  Is err context_DeadlineExceeded = true \/ Is err context_Canceled = true ->
  IsRetryable err = false /\ IsPermanentError err = true.
Proof.
  intros H. destruct (IsContextError_cases err H) as [Hctx Hnn]. split.
  - apply IsRetryable_abandoned, Hctx.
  - apply IsPermanentError_abandoned; assumption.
Qed.

Lemma abandonment_not_retryable_and_permanent_witness :
  (Is timeoutOverDeadline context_DeadlineExceeded = true
   \/ Is timeoutOverDeadline context_Canceled = true)
  /\ As (Retryable_IsRetryable IsRetryable) timeoutOverDeadline = Some true
  /\ IsRetryable timeoutOverDeadline = false
  /\ IsPermanentError timeoutOverDeadline = true.
Proof.
  split; [left; reflexivity|].
  split; [reflexivity|].
  apply (abandonment_not_retryable_and_permanent timeoutOverDeadline).
  left; reflexivity.
Defined.

(** C2, as stated, fails: [IsRetryableTimeout] tests the deadline-exceeded
    condition only (retryable.go:102).  For a [TimeoutError] over
    [context.Canceled] the chain contains an abandonment condition and the
    function still answers true. *)
Lemma IsRetryableTimeout_true_over_canceled :
  Is timeoutOverCanceled context_Canceled = true
  /\ IsRetryableTimeout timeoutOverCanceled = true.
Proof. split; reflexivity. Qed.

(** C2, amended.  For an error whose chain contains the deadline-exceeded or
    the canceled condition, [IsRetryable] and [IsTransientError] answer
    false and [IsPermanentError] answers true; [IsRetryableTimeout] answers
    false when the chain contains the deadline-exceeded condition. *)
Theorem abandonment_at_the_entry_points (err : error) :
  Is err context_DeadlineExceeded = true \/ Is err context_Canceled = true ->
  IsRetryable err = false
  /\ IsTransientError err = false
  /\ IsPermanentError err = true
  /\ (Is err context_DeadlineExceeded = true -> IsRetryableTimeout err = false).
Proof.
  intros H. destruct (IsContextError_cases err H) as [Hctx Hnn].
  repeat split.
  - apply IsRetryable_abandoned, Hctx.
  - apply IsTransientError_abandoned, Hctx.
  - apply IsPermanentError_abandoned; assumption.
  - apply IsRetryableTimeout_deadline.
Qed.

Lemma abandonment_at_the_entry_points_witness :
  (Is timeoutOverCanceled context_DeadlineExceeded = true
   \/ Is timeoutOverCanceled context_Canceled = true)
  /\ IsRetryable timeoutOverCanceled = false
  /\ IsTransientError timeoutOverCanceled = false
  /\ IsPermanentError timeoutOverCanceled = true
  /\ (Is timeoutOverCanceled context_DeadlineExceeded = true ->
      IsRetryableTimeout timeoutOverCanceled = false).
Proof.
  split; [right; reflexivity|].
  apply (abandonment_at_the_entry_points timeoutOverCanceled).
  right; reflexivity.
Defined.

(* ================================================================= *)
(** ** Which self-report decides *)

Lemma firstAccepted_filter {T : Type} (target : error -> option T)
      (l : list error) :
  firstAccepted target l =
  match filter (fun e => match target e with Some _ => true | None => false end) l with
  | [] => None
  | r :: _ => target r
  end.
Proof.
  induction l as [|e l IH]; simpl; [reflexivity|].
  destruct (target e) eqn:He; simpl.
  - symmetry. exact He.
  - exact IH.
Qed.

(** C3, as stated, fails: [errors.As] stops at the first match of the chain,
    counted from the error itself.  For the [TimeoutError] over a
    [ValidationError] no abandonment condition is present, two errors of the
    chain expose the capability, the innermost one reports false, and
    [IsRetryable] answers true. *)
Lemma IsRetryable_not_innermost_verdict :
  IsContextError timeoutOverValidation = false
  /\ List.length (retryables timeoutOverValidation) = 2%nat
  /\ Retryable_IsRetryable IsRetryable
       (last (retryables timeoutOverValidation) NoError) = Some false
  /\ IsRetryable timeoutOverValidation = true.
Proof. repeat split. Qed.

(** C3, amended.  When no abandonment condition is present and one or more
    errors of the chain expose the capability, [IsRetryable] returns the
    verdict of the outermost of them: the first one met when walking from
    the error towards its root cause. *)
Theorem IsRetryable_outermost_verdict (err r : error) (rest : list error) :
  IsContextError err = false ->
  retryables err = r :: rest ->
  Some (IsRetryable err) = Retryable_IsRetryable IsRetryable r.
Proof.
  intros Hctx Hr.
  rewrite IsRetryable_unfold.
  destruct err; try discriminate Hr; simpl isNil; cbv iota;
    unfold IsContextError in Hctx; rewrite Hctx;
    rewrite As_chain, firstAccepted_filter;
    unfold retryables, exposesRetryable in Hr; rewrite Hr;
    destruct (Retryable_IsRetryable IsRetryable r) eqn:Hv; try reflexivity;
    (assert (Hin : In r (r :: rest)) by (left; reflexivity);
     rewrite <- Hr in Hin; apply filter_In in Hin; destruct Hin as [_ Hin];
     rewrite Hv in Hin; discriminate Hin).
Qed.

Lemma IsRetryable_outermost_verdict_witness :
  IsContextError timeoutOverValidation = false
  /\ retryables timeoutOverValidation
     = [timeoutOverValidation; NewValidationError "must not be empty" "host" []]
  /\ Some (IsRetryable timeoutOverValidation)
     = Retryable_IsRetryable IsRetryable timeoutOverValidation.
Proof.
  split; [reflexivity|]. split; [reflexivity|].
  apply (@IsRetryable_outermost_verdict timeoutOverValidation timeoutOverValidation
           [NewValidationError "must not be empty" "host" []]); reflexivity.
Defined.

(* ================================================================= *)
(** ** Network errors *)


(** Any network error free of abandonment conditions: [IsRetryable] follows
    the flag, [IsTransientError] does not. *)
Lemma network_error_in_general (e : NetworkError.t error) :
  IsContextError (ENetwork e) = false ->
  IsRetryable (ENetwork e) = NetworkError.IsTransient e
  /\ IsTransientError (ENetwork e) = true.
Proof.
  intros Hctx. split.
  - rewrite IsRetryable_unfold. unfold IsContextError in Hctx.
    simpl isNil. cbv iota. rewrite Hctx. reflexivity.
  - unfold IsTransientError. rewrite Hctx. reflexivity.
Qed.


(* ================================================================= *)
(** ** HTTP errors *)

Lemma IsRetryable_HTTPError (e : HTTPError.t error) :
  IsContextError (EHTTP e) = false ->
  IsRetryable (EHTTP e) = HTTPError_IsRetryable e.
Proof.
  intros Hctx. rewrite IsRetryable_unfold. unfold IsContextError in Hctx.
  simpl isNil. cbv iota. rewrite Hctx. reflexivity.
Qed.

(** C5.  For an [HTTPError] with no abandonment condition in its chain: a
    status code from 500 to 599, or 429, makes it retryable; a status code
    from 400 to 499 other than 429 makes it not retryable and permanent. *)
Theorem http_status_classification (e : HTTPError.t error) :
  IsContextError (EHTTP e) = false ->
  (500 <= HTTPError.StatusCode e <= 599 \/ HTTPError.StatusCode e = 429 ->
   IsRetryable (EHTTP e) = true)
  /\ (400 <= HTTPError.StatusCode e <= 499 -> HTTPError.StatusCode e <> 429 ->
      IsRetryable (EHTTP e) = false /\ IsPermanentError (EHTTP e) = true).
Proof.
  intros Hctx. split.
  - intros Hs. rewrite (IsRetryable_HTTPError e Hctx).
    unfold HTTPError_IsRetryable.
    apply orb_true_iff. destruct Hs as [Hs|Hs].
    + left. apply Z.geb_le. lia.
    + right. apply Z.eqb_eq. exact Hs.
  - intros Hs Hn. split.
    + rewrite (IsRetryable_HTTPError e Hctx).
      unfold HTTPError_IsRetryable.
      apply orb_false_iff. split.
      * rewrite Z.geb_leb. apply Z.leb_gt. lia.
      * apply Z.eqb_neq. exact Hn.
    + unfold IsPermanentError. rewrite Hctx. simpl isNil. cbv iota.
      destruct (IsValidation (EHTTP e)); [reflexivity|].
      destruct (Is (EHTTP e) ErrCircuitOpen); [reflexivity|].
      change (IsHTTPError (EHTTP e)) with (Some e).
      rewrite !andb_true_iff. repeat split.
      * apply Z.geb_le. lia.
      * apply Z.ltb_lt. lia.
      * apply negb_true_iff, Z.eqb_neq. exact Hn.
Qed.

Lemma http_status_classification_witness :
  (IsContextError (NewHTTPError 503 "Service Unavailable" NoError) = false
   /\ (500 <= 503 <= 599 \/ 503 = 429)
   /\ IsRetryable (NewHTTPError 503 "Service Unavailable" NoError) = true)
  /\ (IsContextError (NewHTTPError 404 "Not Found" (Leaf "no such row")) = false
      /\ 400 <= 404 <= 499 /\ 404 <> 429
      /\ IsRetryable (NewHTTPError 404 "Not Found" (Leaf "no such row")) = false
      /\ IsPermanentError (NewHTTPError 404 "Not Found" (Leaf "no such row")) = true).
Proof.
  split.
  - split; [reflexivity|]. split; [left; lia|].
    apply (http_status_classification
             (HTTPError.mk 503 "Service Unavailable" "" NoError));
      [reflexivity | left; simpl; lia].
  - split; [reflexivity|]. split; [lia|]. split; [lia|].
    apply (http_status_classification
             (HTTPError.mk 404 "Not Found" "" (Leaf "no such row")));
      [reflexivity | simpl; lia | simpl; lia].
Defined.

(* ================================================================= *)
(** ** Processing errors *)

Lemma IsRetryable_nil : IsRetryable NoError = false.
Proof. reflexivity. Qed.

Lemma IsRetryable_ProcessingError (e : ProcessingError.t error) :
  IsContextError (EProcessing e) = false ->
  IsRetryable (EProcessing e) = ProcessingError_IsRetryable IsRetryable e.
Proof.
  intros Hctx. rewrite IsRetryable_unfold. unfold IsContextError in Hctx.
  simpl isNil. cbv iota. rewrite Hctx. reflexivity.
Qed.

Lemma IsRetryable_RateLimitError (e : RateLimitError.t error) :
  IsContextError (ERateLimit e) = false -> IsRetryable (ERateLimit e) = true.
Proof.
  intros Hctx. rewrite IsRetryable_unfold. unfold IsContextError in Hctx.
  simpl isNil. cbv iota. rewrite Hctx. reflexivity.
Qed.

(** C6.  The verdict of a [ProcessingError] is computed when it is asked
    for: the explicit flag, or else a cause that is set and that
    [IsRetryable], the whole engine, classifies as retryable.  The struct
    keeps the flag and the cause and no verdict.  A processing error with no
    flag and no cause is not retryable; one whose cause is a
    [RateLimitError] is retryable, through the classification of that cause:
    so it is for a [RateLimitError] as its constructor returns it, and for
    any [RateLimitError] that [IsRetryable] classifies, that is, one whose
    own chain holds no abandonment condition. *)
Theorem processing_error_retryability_derived :
  (forall e : ProcessingError.t error,
      ProcessingError_IsRetryable IsRetryable e
      = ProcessingError.Retryable e
        || (negb (isNil (ProcessingError.Err e))
            && IsRetryable (ProcessingError.Err e)))
  /\ (forall e : ProcessingError.t error,
         IsContextError (EProcessing e) = false ->
         IsRetryable (EProcessing e)
         = ProcessingError.Retryable e
           || (negb (isNil (ProcessingError.Err e))
               && IsRetryable (ProcessingError.Err e)))
  /\ (forall message operation : string,
         IsRetryable (NewProcessingError message operation []) = false)
  /\ (forall (message operation rlMessage rlOperation : string) (retryAfter : Z),
         IsRetryable
           (NewProcessingError message operation
              [WithCause (NewRateLimitError rlMessage rlOperation retryAfter [])])
         = true)
  /\ (forall (message operation : string) (cause : RateLimitError.t error),
         IsContextError (ERateLimit cause) = false ->
         IsRetryable
           (NewProcessingError message operation [WithCause (ERateLimit cause)])
         = true).
Proof.
  assert (Hmethod : forall e : ProcessingError.t error,
             ProcessingError_IsRetryable IsRetryable e
             = ProcessingError.Retryable e
               || (negb (isNil (ProcessingError.Err e))
                   && IsRetryable (ProcessingError.Err e))).
  { intros e. unfold ProcessingError_IsRetryable.
    destruct (ProcessingError.Retryable e); [reflexivity|].
    destruct (negb (isNil (ProcessingError.Err e))
              && IsRetryable (ProcessingError.Err e)); reflexivity. }
  split; [exact Hmethod|]. split; [|split; [|split]].
  - intros e Hctx. rewrite (IsRetryable_ProcessingError e Hctx). apply Hmethod.
  - intros message operation. reflexivity.
  - intros message operation rlMessage rlOperation retryAfter. reflexivity.
  - intros message operation cause Hctx.
    unfold NewProcessingError, applyOptions. simpl fold_left.
    rewrite IsRetryable_ProcessingError.
    + rewrite Hmethod. simpl. apply IsRetryable_RateLimitError, Hctx.
    + exact Hctx.
Qed.

Lemma processing_error_retryability_derived_witness :
  IsContextError rateLimitedUpstream = false
  /\ IsRetryable
       (NewProcessingError "processing failed" "process"
          [WithCause rateLimitedUpstream])
     = true.
Proof.
  split; [reflexivity|].
  destruct processing_error_retryability_derived as (_ & _ & _ & _ & Hcause).
  apply (Hcause "processing failed" "process"
                (RateLimitError.mk "rate limited" "op" "" (2 * seconds30)
                                   (Wrap (Sentinel ErrServerError) "upstream"))).
  reflexivity.
Defined.

(* ================================================================= *)
(** ** Causes and unwrapping *)

(** C7, as stated, fails for [RetryError]: its [Unwrap] method returns the
    sentinel [ErrRetryExhausted] (resilience.go:66-69), not the last error,
    and the last error is no member of the chain. *)
Lemma RetryError_last_error_not_unwrapped :
  Unwrap exhaustedRetry = Sentinel ErrRetryExhausted
  /\ Unwrap exhaustedRetry <> Leaf "connection timeout"
  /\ ~ In (Leaf "connection timeout") (chain exhaustedRetry).
Proof.
  split; [reflexivity|]. split; [discriminate|].
  simpl. intros [H|[H|[]]]; discriminate H.
Qed.

(** C7, amended.  For the eight variants with a cause field [Err], unwrapping
    yields that cause, the chain continues with the chain of the cause, and
    every sentinel found in the cause is found in the variant.  A
    [RetryError] unwraps to the sentinel [ErrRetryExhausted], where its
    chain ends. *)
Theorem unwrap_yields_cause :
  (forall err cause : error,
      Err_field err = Some cause ->
      Unwrap err = cause
      /\ chain err = err :: chain cause
      /\ (forall reference, Is err reference = Is cause reference))
  /\ (forall e : RetryError.t error,
         Unwrap (ERetry e) = Sentinel ErrRetryExhausted
         /\ chain (ERetry e) = [ERetry e; Sentinel ErrRetryExhausted]).
Proof.
  split.
  - intros err cause H.
    destruct err; simpl in H; try discriminate H;
      injection H as <-;
      (split; [reflexivity|]; split; [reflexivity|]);
      intros reference; rewrite Is_unfold; reflexivity.
  - intros e. split; reflexivity.
Qed.

Lemma unwrap_yields_cause_witness :
  Err_field (NewCircuitBreakerError "circuit tripped" "CallAPI" "open"
               [WithCause (Wrap (Sentinel ErrServerError) "upstream")])
  = Some (Wrap (Sentinel ErrServerError) "upstream")
  /\ Unwrap (NewCircuitBreakerError "circuit tripped" "CallAPI" "open"
               [WithCause (Wrap (Sentinel ErrServerError) "upstream")])
     = Wrap (Sentinel ErrServerError) "upstream".
Proof.
  split; [reflexivity|].
  destruct unwrap_yields_cause as [Hcause _].
  apply (Hcause (NewCircuitBreakerError "circuit tripped" "CallAPI" "open"
                   [WithCause (Wrap (Sentinel ErrServerError) "upstream")])
                (Wrap (Sentinel ErrServerError) "upstream")).
  reflexivity.
Defined.

(* ================================================================= *)
(** ** Generic wrapping of sentinels *)

Lemma WrapsOver_wrapAll (s : sentinel) (msgs : list string) :
  forall err, WrapsOver s err -> WrapsOver s (wrapAll err msgs).
Proof.
  unfold wrapAll.
  induction msgs as [|msg msgs IH]; intros err H; simpl.
  - exact H.
  - apply IH. destruct H; simpl; constructor; constructor; assumption.
Qed.

Lemma Is_WrapsOver (s : sentinel) (err : error) (reference : sentinel) :
  WrapsOver s err -> Is err reference = sentinel_eqb s reference.
Proof.
  induction 1 as [|msg err H IH]; rewrite Is_unfold; [reflexivity|].
  exact IH.
Qed.

Lemma As_WrapsOver {T : Type} (target : error -> option T) (s : sentinel)
      (err : error) :
  (forall msg cause, target (Wrapped msg cause) = None) ->
  WrapsOver s err -> As target err = target (Sentinel s).
Proof.
  intros Hskip. induction 1 as [|msg err H IH]; rewrite As_unfold; simpl.
  - destruct (target (Sentinel s)); reflexivity.
  - rewrite Hskip. exact IH.
Qed.

Lemma IsRetryable_WrapsOver (s : sentinel) (err : error) :
  retryableSentinel s = true -> WrapsOver s err -> IsRetryable err = true.
Proof.
  intros Hs H. rewrite IsRetryable_unfold.
  rewrite !(Is_WrapsOver _ H).
  rewrite (@As_WrapsOver _ (Retryable_IsRetryable IsRetryable) s err)
    by (assumption || reflexivity).
  destruct H; destruct s; try discriminate Hs; reflexivity.
Qed.

Lemma IsTransientError_WrapsOver (s : sentinel) (err : error) :
  transientSentinel s = true -> WrapsOver s err -> IsTransientError err = true.
Proof.
  intros Hs H. unfold IsTransientError, IsContextError, IsNetworkError.
  rewrite !(Is_WrapsOver _ H).
  rewrite (@As_WrapsOver _ asNetworkError s err) by (assumption || reflexivity).
  rewrite (@As_WrapsOver _ asNetError s err) by (assumption || reflexivity).
  destruct H; destruct s; try discriminate Hs; reflexivity.
Qed.

(** C8.  Under any number of wrap layers a retryable sentinel is still found
    in the chain and the verdict is the verdict of the bare sentinel:
    retryable; for the four sentinels [IsTransientError] knows, among them
    [ErrDeadlock], the wrapped sentinel is transient as well. *)
Theorem wrapping_preserves_sentinel (s : sentinel) (msgs : list string) :
  retryableSentinel s = true ->
  Is (wrapAll (Sentinel s) msgs) s = true
  /\ IsRetryable (wrapAll (Sentinel s) msgs) = IsRetryable (Sentinel s)
  /\ IsRetryable (wrapAll (Sentinel s) msgs) = true
  /\ (transientSentinel s = true ->
      IsTransientError (wrapAll (Sentinel s) msgs) = true).
Proof.
  intros Hs.
  assert (H : WrapsOver s (wrapAll (Sentinel s) msgs))
    by (apply WrapsOver_wrapAll; constructor).
  split; [|split; [|split]].
  - rewrite (Is_WrapsOver _ H). apply sentinel_eqb_refl.
  - rewrite (IsRetryable_WrapsOver Hs H).
    symmetry. apply (IsRetryable_WrapsOver Hs). constructor.
  - apply (IsRetryable_WrapsOver Hs H).
  - intros Ht. apply (IsTransientError_WrapsOver Ht H).
Qed.

Lemma wrapping_preserves_sentinel_witness :
  (retryableSentinel ErrRateLimited = true
   /\ Is (Wrap (Wrap (Sentinel ErrRateLimited) "a") "b") ErrRateLimited = true
   /\ IsRetryable (Wrap (Wrap (Sentinel ErrRateLimited) "a") "b") = true)
  /\ (retryableSentinel ErrDeadlock = true
      /\ transientSentinel ErrDeadlock = true
      /\ IsRetryable (Wrap (Sentinel ErrDeadlock) "transaction failed") = true
      /\ IsTransientError (Wrap (Sentinel ErrDeadlock) "transaction failed") = true).
Proof.
  split.
  - split; [reflexivity|].
    destruct (@wrapping_preserves_sentinel ErrRateLimited ["a"; "b"] eq_refl)
      as (HIs & _ & Hretry & _).
    split; [exact HIs | exact Hretry].
  - split; [reflexivity|]. split; [reflexivity|].
    destruct (@wrapping_preserves_sentinel ErrDeadlock ["transaction failed"] eq_refl)
      as (_ & _ & Hretry & Htransient).
    split; [exact Hretry | exact (Htransient eq_refl)].
Defined.

(* ================================================================= *)
(** ** The circuit-open sentinel *)

(** C10.  An error that wraps [ErrCircuitOpen] and has no error in its chain
    that exposes the [Retryable] capability is classified retryable by
    [IsRetryable] and permanent by [IsPermanentError]: the bare sentinel and
    the sentinel under wrap layers are inputs on which both answer true. *)
Theorem circuit_open_retryable_and_permanent (err : error) :
  Is err ErrCircuitOpen = true ->
  As (Retryable_IsRetryable IsRetryable) err = None ->
  IsRetryable err = true /\ IsPermanentError err = true.
Proof.
  intros Hopen Hnone.
  assert (Hctx : IsContextError err = false).
  { unfold IsContextError. apply orb_false_iff. split.
    - destruct (Is err context_DeadlineExceeded) eqn:H; [|reflexivity].
      discriminate (Is_unique err _ _ Hopen H).
    - destruct (Is err context_Canceled) eqn:H; [|reflexivity].
      discriminate (Is_unique err _ _ Hopen H). }
  split.
  - rewrite IsRetryable_unfold, (Is_not_nil _ _ Hopen).
    unfold IsContextError in Hctx. rewrite Hctx, Hnone, Hopen.
    rewrite !orb_true_r. reflexivity.
  - unfold IsPermanentError.
    rewrite (Is_not_nil _ _ Hopen), Hctx, Hopen.
    destruct (IsValidation err); reflexivity.
Qed.

Lemma circuit_open_retryable_and_permanent_witness :
  (Is (Sentinel ErrCircuitOpen) ErrCircuitOpen = true
   /\ As (Retryable_IsRetryable IsRetryable) (Sentinel ErrCircuitOpen) = None
   /\ IsRetryable (Sentinel ErrCircuitOpen) = true
   /\ IsPermanentError (Sentinel ErrCircuitOpen) = true)
  /\ (Is (Wrap (Sentinel ErrCircuitOpen) "call rejected") ErrCircuitOpen = true
      /\ As (Retryable_IsRetryable IsRetryable)
            (Wrap (Sentinel ErrCircuitOpen) "call rejected") = None
      /\ IsRetryable (Wrap (Sentinel ErrCircuitOpen) "call rejected") = true
      /\ IsPermanentError (Wrap (Sentinel ErrCircuitOpen) "call rejected") = true).
Proof.
  split; (split; [reflexivity|]; split; [reflexivity|]).
  - apply (circuit_open_retryable_and_permanent (Sentinel ErrCircuitOpen));
      reflexivity.
  - apply (circuit_open_retryable_and_permanent
             (Wrap (Sentinel ErrCircuitOpen) "call rejected")); reflexivity.
Defined.

(* ================================================================= *)
(** ** The configuration mechanism *)

(** C9, as stated, fails: set-cause is not applicable to all variants.  A
    [RetryError] declares no cause field (resilience.go:36-43): its last
    error is a constructor argument and its [Unwrap] yields the sentinel.
    [WithCause] (options.go:22-41) returns it as it is, and the cause given
    is nowhere in the chain. *)
Lemma WithCause_does_not_apply_to_RetryError :
  Err_field (NewRetryError 1 3 NoError [] []) = None
  /\ NewRetryError 1 3 NoError [] [WithCause (Leaf "database error")]
     = NewRetryError 1 3 NoError [] []
  /\ Unwrap (NewRetryError 1 3 NoError [] [WithCause (Leaf "database error")])
     = Sentinel ErrRetryExhausted
  /\ ~ In (Leaf "database error")
         (chain (NewRetryError 1 3 NoError [] [WithCause (Leaf "database error")])).
Proof.
  repeat (split; [reflexivity|]).
  simpl. intros [H|[H|[]]]; discriminate H.
Qed.

(** C9, amended.  Each of the twelve adjustments assigns its value to the
    variants listed in [targets], keeping the variant: set-cause and
    set-message to HTTP, Validation, Timeout, RateLimit, Processing, Network
    and CircuitBreaker; set-operation to Timeout, RateLimit, Processing,
    Network and CircuitBreaker; set-component to every variant; set-counts
    to CircuitBreaker, with the five counters of [CircuitCounts]; the others
    to their single variant.  Every target declares the field assigned.  An
    adjustment applied to a value whose type does not declare the field it
    assigns (set-cause on a [RetryError], set-status-code on anything but an
    [HTTPError], any adjustment on an error that is none of the variants)
    returns the value as it received it.  Nothing is stated for a struct
    that declares the field while the option has no case for it. *)
Theorem adjustments_and_their_targets (a : adjustment) (err : error) :
  (targeted a err = true ->
   declaresField a err = true
   /\ assigned a (optionOf a err)
   /\ variantOf (optionOf a err) = variantOf err)
  /\ (declaresField a err = false -> optionOf a err = err).
Proof.
  split; intros H; destruct a; destruct err;
    solve [ discriminate H | reflexivity | repeat split ].
Qed.

Lemma adjustments_and_their_targets_witness :
  (targeted (SetCause (Sentinel ErrServerError))
            (NewTimeoutError "op timed out" "Fetch" seconds30 []) = true
   /\ Err_field (NewTimeoutError "op timed out" "Fetch" seconds30
                   [WithCause (Sentinel ErrServerError)])
      = Some (Sentinel ErrServerError))
  /\ (declaresField (SetStatusCode 503)
                    (NewValidationError "must not be empty" "host" []) = false
      /\ NewValidationError "must not be empty" "host" [WithStatusCode 503]
         = NewValidationError "must not be empty" "host" [])
  /\ (declaresField (SetCause (Leaf "database error"))
                    (NewRetryError 1 3 NoError [] []) = false
      /\ NewRetryError 1 3 NoError [] [WithCause (Leaf "database error")]
         = NewRetryError 1 3 NoError [] [])
  /\ (targeted (SetCounts someCounts)
               (NewCircuitBreakerError "circuit open" "API" "open" []) = true
      /\ Counts_field
           (NewCircuitBreakerError "circuit open" "API" "open"
              [WithCounts someCounts])
         = Some someCounts).
Proof.
  split; [|split; [|split]].
  - split; [reflexivity|].
    apply (adjustments_and_their_targets (SetCause (Sentinel ErrServerError))
             (NewTimeoutError "op timed out" "Fetch" seconds30 [])).
    reflexivity.
  - split; [reflexivity|].
    apply (adjustments_and_their_targets (SetStatusCode 503)
             (NewValidationError "must not be empty" "host" [])).
    reflexivity.
  - split; [reflexivity|].
    apply (adjustments_and_their_targets (SetCause (Leaf "database error"))
             (NewRetryError 1 3 NoError [] [])).
    reflexivity.
  - split; [reflexivity|].
    apply (adjustments_and_their_targets (SetCounts someCounts)
             (NewCircuitBreakerError "circuit open" "API" "open" [])).
    reflexivity.
Defined.


(* ================================================================= *)
(** ** The package's tests, replayed on the embedding *)

(** TestIsRetryable. *)
Example test_IsRetryable :
  map IsRetryable
      [NoError; Sentinel context_DeadlineExceeded; Sentinel context_Canceled;
       Sentinel ErrRateLimited; Sentinel ErrNetworkTimeout;
       Sentinel ErrServerError; Sentinel ErrConnectionError;
       Sentinel ErrDeadlock; Sentinel ErrCircuitOpen;
       Wrap (Sentinel context_DeadlineExceeded) "operation failed";
       Leaf "API rate limit exceeded"; Leaf "something went wrong"]
  = [false; false; false; true; true; true; true; true; true; false; true; false].
Proof. reflexivity. Qed.

(** TestIsRetryableTimeout. *)
Example test_IsRetryableTimeout :
  map IsRetryableTimeout
      [NoError; Sentinel context_DeadlineExceeded;
       NewTimeoutError "timeout" "operation" seconds30 [];
       Sentinel ErrNetworkTimeout]
  = [false; false; true; true].
Proof. reflexivity. Qed.

(** TestIsTransientError. *)
Example test_IsTransientError :
  map IsTransientError
      [NoError; NewNetworkError "connection failed" "Connect" [];
       Sentinel ErrRateLimited; Sentinel ErrServerError;
       Sentinel context_Canceled; NewValidationError "invalid" "field" []]
  = [false; true; true; true; false; false].
Proof. reflexivity. Qed.

(** TestIsPermanentError. *)
Example test_IsPermanentError :
  map IsPermanentError
      [NoError; NewValidationError "invalid" "field" [];
       Sentinel context_Canceled; Sentinel ErrCircuitOpen;
       NewHTTPError 404 "Not Found" NoError;
       NewHTTPError 429 "Too Many Requests" NoError;
       NewHTTPError 500 "Internal Server Error" NoError]
  = [false; true; true; true; true; false; false].
Proof. reflexivity. Qed.

(** TestHTTPError: the self-reports and the status codes read back. *)
Example test_HTTPError :
  map (fun code => (IsRetryable (NewHTTPError code "" NoError),
                    GetHTTPStatusCode (NewHTTPError code "" NoError)))
      [500; 503; 429; 404; 400]
  = [(true, 500); (true, 503); (true, 429); (false, 404); (false, 400)].
Proof. reflexivity. Qed.

(** TestErrorWrapping, TestProcessingError and
    TestProcessingErrorWithWrappedRetryable. *)
Example test_wrapping_and_processing :
  IsRetryable (Wrap (Sentinel ErrRateLimited) "API call failed") = true
  /\ IsRetryable (Wrap (NewHTTPError 503 "Service Unavailable" NoError)
                       "Request failed") = true
  /\ IsRetryable (NewTimeoutError "operation timed out" "Process" seconds30
                    [WithCause (Sentinel context_DeadlineExceeded)]) = false
  /\ IsRetryable (NewProcessingError "Failed to process" "ProcessItem"
                    [WithRetryable true]) = true
  /\ IsRetryable (NewRetryableProcessingError "Failed to process" "ProcessItem" [])
     = true
  /\ IsRetryable (NewCircuitBreakerError "Too many failures" "CallAPI" "open" [])
     = false.
Proof. repeat split. Qed.

(** The message formats of errors.go and resilience.go on sample values. *)
Example test_Error_messages :
  Error (NewTimeoutError "op timed out" "Fetch" seconds30
           [WithCause (Sentinel context_DeadlineExceeded)])
  = "timeout in Fetch after 30s: op timed out: context deadline exceeded"
  /\ Error (NewValidationError "Price must be positive" "price"
              [WithValue (AnyInt (-10))])
     = "validation failed for field 'price' (value: -10): Price must be positive"
  /\ Error (NewProcessingError "Failed" "Process" [WithItemID "item-123"])
     = "Failed: Process failed for item item-123 (not retryable)"
  /\ Error (NewRetryError 3 5 (Leaf "timeout") [] [WithComponent "normaliser"])
     = "retry exhausted after 3/5 attempts for normaliser/: timeout".
Proof. repeat split. Qed.

(* ================================================================= *)
(** ** Text and wrap layers *)

Lemma append_cons (x : ascii) (a b : string) :
  String x a ++ b = String x (a ++ b).
Proof. reflexivity. Qed.

Lemma append_assoc3 (a b c : string) : (a ++ b) ++ c = a ++ b ++ c.
Proof.
  induction a as [|x a IH]; [reflexivity|].
  rewrite !append_cons, IH. reflexivity.
Qed.

Lemma ToLower_app (a b : string) : ToLower (a ++ b) = ToLower a ++ ToLower b.
Proof.
  induction a as [|x a IH]; [reflexivity|].
  rewrite append_cons. simpl ToLower. rewrite append_cons, IH. reflexivity.
Qed.

Lemma prefix_empty (s : string) : prefix "" s = true.
Proof. destruct s; reflexivity. Qed.

Lemma prefix_app (p a b : string) :
  prefix p a = true -> prefix p (a ++ b) = true.
Proof.
  revert a. induction p as [|x p IH]; intros a H; [apply prefix_empty|].
  destruct a as [|y a]; [discriminate H|].
  rewrite append_cons. simpl in *.
  destruct (ascii_dec x y); [apply IH; exact H | discriminate H].
Qed.

Lemma Contains_cons (x : ascii) (s substr : string) :
  Contains (String x s) substr
  = if prefix substr (String x s) then true else Contains s substr.
Proof. reflexivity. Qed.

Lemma Contains_prefix (s substr : string) :
  prefix substr s = true -> Contains s substr = true.
Proof.
  intros H. destruct s.
  - destruct substr; [reflexivity | discriminate H].
  - rewrite Contains_cons, H. reflexivity.
Qed.

Lemma Contains_app_l (a b substr : string) :
  Contains a substr = true -> Contains (a ++ b) substr = true.
Proof.
  induction a as [|x a IH]; intros H.
  - apply Contains_prefix.
    destruct substr; [apply prefix_empty | discriminate H].
  - rewrite Contains_cons in H.
    destruct (prefix substr (String x a)) eqn:Hp.
    + apply Contains_prefix, prefix_app, Hp.
    + rewrite append_cons, Contains_cons, (IH H).
      destruct (prefix substr (String x (a ++ b))); reflexivity.
Qed.

Lemma Contains_app_r (a b substr : string) :
  Contains b substr = true -> Contains (a ++ b) substr = true.
Proof.
  intros H. induction a as [|x a IH]; [exact H|].
  rewrite append_cons, Contains_cons, IH.
  destruct (prefix substr (String x (a ++ b))); reflexivity.
Qed.

Lemma Contains_nonEmpty (s substr : string) :
  Contains s substr = true -> nonEmpty substr = true -> nonEmpty s = true.
Proof.
  destruct s; [|reflexivity]. destruct substr; [discriminate 2|].
  discriminate 1.
Qed.

Lemma isNil_Wrap (err : error) (msg : string) :
  isNil (Wrap err msg) = isNil err.
Proof. destruct err; reflexivity. Qed.

Lemma Wrap_not_nil (err : error) (msg : string) :
  isNil err = false -> Wrap err msg = Wrapped msg err.
Proof. destruct err; [discriminate | reflexivity ..]. Qed.

(** A target that no wrap layer satisfies sees through the layer. *)
Lemma As_Wrap {T : Type} (target : error -> option T) (err : error)
      (msg : string) :
  (forall m c, target (Wrapped m c) = None) ->
  As target (Wrap err msg) = As target err.
Proof.
  intros Hskip. destruct (isNil err) eqn:Hn.
  - destruct err; [reflexivity | discriminate Hn ..].
  - rewrite (Wrap_not_nil _ _ Hn), As_unfold. simpl. rewrite Hskip.
    reflexivity.
Qed.

Lemma IsHTTPError_Wrap (err : error) (msg : string) :
  IsHTTPError (Wrap err msg) = IsHTTPError err.
Proof. unfold IsHTTPError. apply As_Wrap. reflexivity. Qed.

Lemma IsContextError_Wrap (err : error) (msg : string) :
  IsContextError (Wrap err msg) = IsContextError err.
Proof. unfold IsContextError. rewrite !Is_Wrap. reflexivity. Qed.

Lemma Error_Wrap (err : error) (msg : string) :
  isNil err = false ->
  Error (Wrap err msg)
  = if nonEmpty msg then msg ++ ": " ++ Error err else Error err.
Proof. intros Hn. rewrite (Wrap_not_nil _ _ Hn). reflexivity. Qed.

(** Where an [HTTPError] is in the chain, a [Retryable] is. *)
Lemma no_capability_no_HTTPError (err : error) :
  As (Retryable_IsRetryable IsRetryable) err = None -> IsHTTPError err = None.
Proof.
  unfold IsHTTPError.
  induction err as [|err Hnn IH] using chain_induction; [reflexivity|].
  rewrite (As_unfold (Retryable_IsRetryable IsRetryable)), (As_unfold asHTTPError).
  destruct err; simpl in *; intros H;
    try reflexivity; try discriminate H; try (apply IH; exact H).
  destruct (ForeignError.SelfRetryable e); [discriminate H | apply IH; exact H].
Qed.

(** The verdict when an error itself exposes the capability. *)
Lemma IsRetryable_self_report (err : error) (verdict : bool) :
  Retryable_IsRetryable IsRetryable err = Some verdict ->
  IsRetryable err = negb (IsContextError err) && verdict.
Proof.
  intros H. rewrite IsRetryable_unfold, As_unfold, H.
  unfold IsContextError.
  destruct err; [discriminate H|..]; simpl isNil; cbv iota;
    destruct (Is _ context_DeadlineExceeded || Is _ context_Canceled);
    reflexivity.
Qed.

(* ================================================================= *)
(** ** More on the classification engine *)

(** X1.  A nil error is classified false by the four entry points and by
    every chain helper; it has no HTTP status (0), no formatted text and no
    info map. *)
Theorem nil_is_never_classified :
  IsRetryable NoError = false
  /\ IsRetryableTimeout NoError = false
  /\ IsTransientError NoError = false
  /\ IsPermanentError NoError = false
  /\ IsHTTPError NoError = None
  /\ GetHTTPStatusCode NoError = 0
  /\ IsTimeout NoError = false
  /\ IsValidation NoError = false
  /\ IsNetworkError NoError = false
  /\ IsContextError NoError = false
  /\ FormatError NoError = ""
  /\ ExtractErrorInfo NoError = None.
Proof. repeat split. Qed.

(** X2.  A [ValidationError], a [CircuitBreakerError] and a [RetryError] are
    never retryable, whatever their fields and whatever they wrap (a
    retryable sentinel, a rate-limit error); a [ValidationError] anywhere in
    a chain makes the error permanent. *)
Theorem never_retryable_variants :
  (forall e : ValidationError.t error, IsRetryable (EValidation e) = false)
  /\ (forall e : CircuitBreakerError.t error, IsRetryable (ECircuitBreaker e) = false)
  /\ (forall e : RetryError.t error, IsRetryable (ERetry e) = false)
  /\ (forall err : error, IsValidation err = true -> IsPermanentError err = true).
Proof.
  split; [|split; [|split]].
  - intros e. rewrite (@IsRetryable_self_report (EValidation e) false eq_refl).
    apply andb_false_r.
  - intros e. rewrite (@IsRetryable_self_report (ECircuitBreaker e) false eq_refl).
    apply andb_false_r.
  - intros e. rewrite (@IsRetryable_self_report (ERetry e) false eq_refl).
    apply andb_false_r.
  - intros err H. unfold IsPermanentError. rewrite H.
    destruct err; [discriminate H | reflexivity ..].
Qed.

Lemma never_retryable_variants_witness :
  IsValidation
    (Wrap (NewValidationError "bad" "email" [WithCause (Sentinel ErrRateLimited)])
          "signup") = true
  /\ IsPermanentError
       (Wrap (NewValidationError "bad" "email" [WithCause (Sentinel ErrRateLimited)])
             "signup") = true.
Proof.
  split; [reflexivity|].
  destruct never_retryable_variants as (_ & _ & _ & H).
  apply (H (Wrap (NewValidationError "bad" "email"
                    [WithCause (Sentinel ErrRateLimited)]) "signup")).
  reflexivity.
Defined.

(** X3.  A [RateLimitError], a [RetryableError] and a [TimeoutError] are
    retryable exactly when their chain holds no abandonment condition: what
    else they wrap (a validation error, a circuit breaker error) does not
    count. *)
Theorem always_retryable_variants :
  (forall e : RateLimitError.t error,
      IsRetryable (ERateLimit e) = negb (IsContextError (ERateLimit e)))
  /\ (forall e : RetryableError.t error,
         IsRetryable (ERetryable e) = negb (IsContextError (ERetryable e)))
  /\ (forall e : TimeoutError.t error,
         IsRetryable (ETimeout e) = negb (IsContextError (ETimeout e))).
Proof.
  split; [|split]; intros e.
  - rewrite (@IsRetryable_self_report (ERateLimit e) true eq_refl).
    apply andb_true_r.
  - rewrite (@IsRetryable_self_report (ERetryable e) true eq_refl).
    apply andb_true_r.
  - rewrite (@IsRetryable_self_report (ETimeout e) true eq_refl).
    apply andb_true_r.
Qed.

(** X4.  An error type of another package that implements
    [IsRetryable() bool] is classified by its own answer, unless its chain
    holds an abandonment condition; sentinels and texts further down are not
    consulted. *)
Theorem foreign_capability_decides (e : ForeignError.t error) (verdict : bool) :
  ForeignError.SelfRetryable e = Some verdict ->
  IsRetryable (Foreign e) = negb (IsContextError (Foreign e)) && verdict.
Proof. intros H. apply IsRetryable_self_report. exact H. Qed.

Lemma foreign_capability_decides_witness :
  ForeignError.SelfRetryable
    (ForeignError.mk "comparison timed out: rate limit" (Some false) None
                     (Sentinel ErrRateLimited)) = Some false
  /\ IsRetryable
       (Foreign (ForeignError.mk "comparison timed out: rate limit" (Some false)
                                 None (Sentinel ErrRateLimited))) = false.
Proof.
  split; [reflexivity|].
  apply (@foreign_capability_decides
           (ForeignError.mk "comparison timed out: rate limit" (Some false) None
                            (Sentinel ErrRateLimited)) false).
  reflexivity.
Defined.

(** X5.  The errors recorded in a [RetryError] (the last error and the list
    of all errors) never take part in classification: whatever they are, the
    [RetryError] is not retryable, not a retryable timeout, not transient,
    not permanent and no context error, and the only sentinel [errors.Is]
    finds in it is [ErrRetryExhausted]. *)
Theorem RetryError_hides_recorded_errors (e : RetryError.t error) :
  IsRetryable (ERetry e) = false
  /\ IsRetryableTimeout (ERetry e) = false
  /\ IsTransientError (ERetry e) = false
  /\ IsPermanentError (ERetry e) = false
  /\ IsContextError (ERetry e) = false
  /\ IsHTTPError (ERetry e) = None
  /\ (forall reference,
         Is (ERetry e) reference = sentinel_eqb ErrRetryExhausted reference).
Proof.
  repeat split.
  intros reference. destruct reference; reflexivity.
Qed.

(** X6.  The HTTP-shape step of [IsRetryable] (retryable.go:76-79) never
    decides: every chain that holds an [HTTPError] holds a value with the
    [Retryable] capability, so the capability step has answered before. *)
Theorem HTTP_step_never_reached (err : error) (httpErr : HTTPError.t error) :
  IsHTTPError err = Some httpErr ->
  exists verdict, As (Retryable_IsRetryable IsRetryable) err = Some verdict.
Proof.
  intros H.
  destruct (As (Retryable_IsRetryable IsRetryable) err) as [verdict|] eqn:Hr.
  - exists verdict. reflexivity.
  - rewrite (no_capability_no_HTTPError err Hr) in H. discriminate H.
Qed.

Lemma HTTP_step_never_reached_witness :
  IsHTTPError (Wrap (NewHTTPError 404 "Not Found" NoError) "lookup")
  = Some (HTTPError.mk 404 "Not Found" "" NoError)
  /\ exists verdict,
      As (Retryable_IsRetryable IsRetryable)
         (Wrap (NewHTTPError 404 "Not Found" NoError) "lookup") = Some verdict.
Proof.
  split; [reflexivity|].
  apply (@HTTP_step_never_reached
           (Wrap (NewHTTPError 404 "Not Found" NoError) "lookup")
           (HTTPError.mk 404 "Not Found" "" NoError)).
  reflexivity.
Defined.

Lemma IsRetryable_without_capability_aux (err : error) :
  isNil err = false ->
  As (Retryable_IsRetryable IsRetryable) err = None ->
  IsRetryable err
  = negb (IsContextError err)
    && (Is err ErrRateLimited || Is err ErrNetworkTimeout || Is err ErrServerError
        || Is err ErrConnectionError || Is err ErrDeadlock || Is err ErrCircuitOpen
        || Contains (ToLower (Error err)) "rate limit").
Proof.
  intros Hn Hr.
  rewrite IsRetryable_unfold, Hn, Hr, (no_capability_no_HTTPError err Hr).
  unfold IsContextError.
  destruct (Is err context_DeadlineExceeded || Is err context_Canceled);
    [reflexivity|].
  destruct (Is err ErrRateLimited || Is err ErrNetworkTimeout
            || Is err ErrServerError || Is err ErrConnectionError
            || Is err ErrDeadlock || Is err ErrCircuitOpen); [reflexivity|].
  destruct (Contains (ToLower (Error err)) "rate limit"); reflexivity.
Qed.

(** X7.  For an error with no [Retryable] capability anywhere in its chain
    the verdict of [IsRetryable] is: no abandonment condition, and one of
    the six retryable sentinels in the chain or the words "rate limit", in
    any letter case, in the message. *)
Theorem IsRetryable_without_capability (err : error) :
  isNil err = false ->
  As (Retryable_IsRetryable IsRetryable) err = None ->
  IsRetryable err
  = negb (IsContextError err)
    && (Is err ErrRateLimited || Is err ErrNetworkTimeout || Is err ErrServerError
        || Is err ErrConnectionError || Is err ErrDeadlock || Is err ErrCircuitOpen
        || Contains (ToLower (Error err)) "rate limit").
Proof. apply IsRetryable_without_capability_aux. Qed.

Lemma IsRetryable_without_capability_witness :
  isNil (Wrap (Leaf "Upstream said: Rate Limit hit") "sync") = false
  /\ As (Retryable_IsRetryable IsRetryable)
        (Wrap (Leaf "Upstream said: Rate Limit hit") "sync") = None
  /\ IsRetryable (Wrap (Leaf "Upstream said: Rate Limit hit") "sync") = true.
Proof.
  split; [reflexivity|]. split; [reflexivity|].
  rewrite (@IsRetryable_without_capability
             (Wrap (Leaf "Upstream said: Rate Limit hit") "sync") eq_refl eq_refl).
  reflexivity.
Defined.

(* ================================================================= *)
(** ** Wrap layers and the entry points *)

Lemma IsRetryableTimeout_Wrap (err : error) (msg : string) :
  IsRetryableTimeout (Wrap err msg) = IsRetryableTimeout err.
Proof.
  unfold IsRetryableTimeout.
  rewrite isNil_Wrap, !Is_Wrap, (@As_Wrap _ asTimeoutError) by reflexivity.
  reflexivity.
Qed.

Lemma IsNetworkError_Wrap (err : error) (msg : string) :
  IsNetworkError (Wrap err msg) = IsNetworkError err.
Proof.
  unfold IsNetworkError.
  rewrite (@As_Wrap _ asNetworkError), (@As_Wrap _ asNetError) by reflexivity.
  reflexivity.
Qed.

Lemma IsValidation_Wrap (err : error) (msg : string) :
  IsValidation (Wrap err msg) = IsValidation err.
Proof.
  unfold IsValidation. rewrite (@As_Wrap _ asValidationError) by reflexivity.
  reflexivity.
Qed.

(** X8.  A wrap layer is invisible to every chain helper and to three of
    the four entry points: [IsRetryableTimeout], [IsTransientError] and
    [IsPermanentError] answer for the wrapped error what they answer for the
    error, whatever the message of the layer. *)
Theorem wrap_layer_is_invisible (err : error) (msg : string) :
  IsContextError (Wrap err msg) = IsContextError err
  /\ IsHTTPError (Wrap err msg) = IsHTTPError err
  /\ GetHTTPStatusCode (Wrap err msg) = GetHTTPStatusCode err
  /\ IsTimeout (Wrap err msg) = IsTimeout err
  /\ IsValidation (Wrap err msg) = IsValidation err
  /\ IsNetworkError (Wrap err msg) = IsNetworkError err
  /\ IsRetryableTimeout (Wrap err msg) = IsRetryableTimeout err
  /\ IsTransientError (Wrap err msg) = IsTransientError err
  /\ IsPermanentError (Wrap err msg) = IsPermanentError err.
Proof.
  repeat split.
  - apply IsContextError_Wrap.
  - apply IsHTTPError_Wrap.
  - unfold GetHTTPStatusCode. rewrite IsHTTPError_Wrap. reflexivity.
  - unfold IsTimeout.
    rewrite (@As_Wrap _ asTimeoutError), (@As_Wrap _ asNetError) by reflexivity.
    reflexivity.
  - apply IsValidation_Wrap.
  - apply IsNetworkError_Wrap.
  - apply IsRetryableTimeout_Wrap.
  - unfold IsTransientError.
    rewrite isNil_Wrap, IsContextError_Wrap, IsNetworkError_Wrap, !Is_Wrap.
    reflexivity.
  - unfold IsPermanentError.
    rewrite isNil_Wrap, IsValidation_Wrap, IsContextError_Wrap, Is_Wrap,
      IsHTTPError_Wrap.
    reflexivity.
Qed.

Lemma IsRetryable_Wrap_unfold (err : error) (msg : string) :
  isNil err = false ->
  IsRetryable (Wrap err msg) =
  if Is err context_DeadlineExceeded || Is err context_Canceled then false
  else
    match As (Retryable_IsRetryable IsRetryable) err with
    | Some verdict => verdict
    | None =>
        if Is err ErrRateLimited || Is err ErrNetworkTimeout
           || Is err ErrServerError || Is err ErrConnectionError
           || Is err ErrDeadlock || Is err ErrCircuitOpen
        then true
        else
          match IsHTTPError err with
          | Some httpErr => HTTPError_IsRetryable httpErr
          | None =>
              if Contains
                   (ToLower (if nonEmpty msg then msg ++ ": " ++ Error err
                             else Error err)) "rate limit"
              then true else false
          end
    end.
Proof.
  intros Hn.
  rewrite IsRetryable_unfold, isNil_Wrap, Hn, !Is_Wrap, IsHTTPError_Wrap,
    (@As_Wrap _ (Retryable_IsRetryable IsRetryable)), (@Error_Wrap err msg Hn)
    by reflexivity.
  reflexivity.
Qed.

(** X9.  Wrapping never loses retryability: if [IsRetryable] answers true
    for an error it answers true for the error under a wrap layer, whatever
    the message of the layer. *)
Theorem wrap_keeps_retryable (err : error) (msg : string) :
  IsRetryable err = true -> IsRetryable (Wrap err msg) = true.
Proof.
  intros H.
  assert (Hn : isNil err = false) by (destruct err; [discriminate H | reflexivity ..]).
  rewrite (@IsRetryable_Wrap_unfold err msg Hn).
  rewrite IsRetryable_unfold, Hn in H.
  destruct (Is err context_DeadlineExceeded || Is err context_Canceled);
    [discriminate H|].
  destruct (As (Retryable_IsRetryable IsRetryable) err); [exact H|].
  destruct (Is err ErrRateLimited || Is err ErrNetworkTimeout
            || Is err ErrServerError || Is err ErrConnectionError
            || Is err ErrDeadlock || Is err ErrCircuitOpen); [reflexivity|].
  destruct (IsHTTPError err); [exact H|].
  destruct (Contains (ToLower (Error err)) "rate limit") eqn:Hc;
    [|discriminate H].
  destruct (nonEmpty msg); [|rewrite Hc; reflexivity].
  rewrite <- append_assoc3, ToLower_app, (@Contains_app_r (ToLower (msg ++ ": ")) _ _ Hc).
  reflexivity.
Qed.

Lemma wrap_keeps_retryable_witness :
  IsRetryable (Leaf "API rate limit exceeded") = true
  /\ IsRetryable (Wrap (Leaf "API rate limit exceeded") "fetch page") = true.
Proof.
  split; [reflexivity|].
  apply (wrap_keeps_retryable (Leaf "API rate limit exceeded") "fetch page").
  reflexivity.
Defined.

(** X10.  Wrapping can create retryability: for an error with no
    abandonment condition and no [Retryable] capability in its chain, a wrap
    message that mentions "rate limit", in any letter case, makes
    [IsRetryable] answer true, whatever the error was. *)
Theorem wrap_message_can_make_retryable (err : error) (msg : string) :
  isNil err = false ->
  IsContextError err = false ->
  As (Retryable_IsRetryable IsRetryable) err = None ->
  Contains (ToLower msg) "rate limit" = true ->
  IsRetryable (Wrap err msg) = true.
Proof.
  intros Hn Hctx Hr Hmsg.
  rewrite (@IsRetryable_Wrap_unfold err msg Hn), Hr, (no_capability_no_HTTPError err Hr).
  unfold IsContextError in Hctx. rewrite Hctx.
  destruct (Is err ErrRateLimited || Is err ErrNetworkTimeout
            || Is err ErrServerError || Is err ErrConnectionError
            || Is err ErrDeadlock || Is err ErrCircuitOpen); [reflexivity|].
  assert (Hne : nonEmpty msg = true).
  { destruct msg; [discriminate Hmsg | reflexivity]. }
  rewrite Hne, ToLower_app, (@Contains_app_l _ (ToLower (": " ++ Error err)) _ Hmsg). reflexivity.
Qed.

Lemma wrap_message_can_make_retryable_witness :
  isNil (Sentinel ErrInvalidResponse) = false
  /\ IsContextError (Sentinel ErrInvalidResponse) = false
  /\ As (Retryable_IsRetryable IsRetryable) (Sentinel ErrInvalidResponse) = None
  /\ Contains (ToLower "Rate Limit probe") "rate limit" = true
  /\ IsRetryable (Sentinel ErrInvalidResponse) = false
  /\ IsRetryable (Wrap (Sentinel ErrInvalidResponse) "Rate Limit probe") = true.
Proof.
  repeat (split; [reflexivity|]).
  apply (wrap_message_can_make_retryable (Sentinel ErrInvalidResponse)
                                         "Rate Limit probe"); reflexivity.
Defined.

(** X11.  The two policies agree on sentinels: an error that
    [IsTransientError] accepts, that is no network error and that has no
    [Retryable] capability in its chain, is retryable. *)
Theorem transient_sentinel_is_retryable (err : error) :
  As (Retryable_IsRetryable IsRetryable) err = None ->
  IsNetworkError err = false ->
  IsTransientError err = true ->
  IsRetryable err = true.
Proof.
  intros Hr Hnet Ht. unfold IsTransientError in Ht.
  destruct (isNil err) eqn:Hn; [discriminate Ht|].
  rewrite (@IsRetryable_without_capability_aux err Hn Hr).
  destruct (IsContextError err); [discriminate Ht|].
  rewrite Hnet in Ht.
  destruct (Is err ErrRateLimited); [reflexivity|].
  destruct (Is err ErrServerError); [rewrite !orb_true_r; reflexivity|].
  destruct (Is err ErrConnectionError); [rewrite !orb_true_r; reflexivity|].
  destruct (Is err ErrDeadlock); [rewrite !orb_true_r; reflexivity|].
  discriminate Ht.
Qed.

Lemma transient_sentinel_is_retryable_witness :
  As (Retryable_IsRetryable IsRetryable)
     (Wrap (Sentinel ErrConnectionError) "dial") = None
  /\ IsNetworkError (Wrap (Sentinel ErrConnectionError) "dial") = false
  /\ IsTransientError (Wrap (Sentinel ErrConnectionError) "dial") = true
  /\ IsRetryable (Wrap (Sentinel ErrConnectionError) "dial") = true.
Proof.
  repeat (split; [reflexivity|]).
  apply (transient_sentinel_is_retryable
           (Wrap (Sentinel ErrConnectionError) "dial")); reflexivity.
Defined.

(* ================================================================= *)
(** ** HTTP errors for every status and cause *)

Lemma HTTPError_retryable_exact (e : HTTPError.t error) :
  IsRetryable (EHTTP e)
  = negb (IsContextError (HTTPError.Err e))
    && ((HTTPError.StatusCode e >=? 500) || (HTTPError.StatusCode e =? 429)).
Proof. apply (@IsRetryable_self_report (EHTTP e)). reflexivity. Qed.

Lemma HTTPError_permanent_exact (e : HTTPError.t error) :
  IsPermanentError (EHTTP e)
  = IsValidation (HTTPError.Err e)
    || IsContextError (HTTPError.Err e)
    || Is (HTTPError.Err e) ErrCircuitOpen
    || ((HTTPError.StatusCode e >=? 400) && (HTTPError.StatusCode e <? 500)
        && negb (HTTPError.StatusCode e =? 429)).
Proof.
  unfold IsPermanentError. simpl isNil. cbv iota.
  change (IsValidation (EHTTP e)) with (IsValidation (HTTPError.Err e)).
  change (IsContextError (EHTTP e)) with (IsContextError (HTTPError.Err e)).
  change (Is (EHTTP e) ErrCircuitOpen) with (Is (HTTPError.Err e) ErrCircuitOpen).
  change (IsHTTPError (EHTTP e)) with (Some e).
  destruct (IsValidation (HTTPError.Err e)); [reflexivity|].
  destruct (IsContextError (HTTPError.Err e)); [reflexivity|].
  destruct (Is (HTTPError.Err e) ErrCircuitOpen); reflexivity.
Qed.

Lemma HTTPError_transient_exact (e : HTTPError.t error) :
  IsTransientError (EHTTP e) = IsTransientError (HTTPError.Err e).
Proof. destruct e as [code message component cause]. destruct cause; reflexivity. Qed.

(** X12.  The classification of an [HTTPError] for every status code and
    every cause.  It is retryable iff its cause holds no abandonment
    condition and the status is 500 or more (600 and above included) or 429;
    it is permanent iff its cause holds a validation error, an abandonment
    condition or the circuit-open sentinel, or the status is from 400 to 499
    and not 429; it is transient exactly when its cause is: no status code,
    503 included, makes an [HTTPError] transient. *)
Theorem HTTPError_classification (e : HTTPError.t error) :
  IsRetryable (EHTTP e)
  = negb (IsContextError (HTTPError.Err e))
    && ((HTTPError.StatusCode e >=? 500) || (HTTPError.StatusCode e =? 429))
  /\ IsPermanentError (EHTTP e)
     = IsValidation (HTTPError.Err e)
       || IsContextError (HTTPError.Err e)
       || Is (HTTPError.Err e) ErrCircuitOpen
       || ((HTTPError.StatusCode e >=? 400) && (HTTPError.StatusCode e <? 500)
           && negb (HTTPError.StatusCode e =? 429))
  /\ IsTransientError (EHTTP e) = IsTransientError (HTTPError.Err e).
Proof.
  split; [apply HTTPError_retryable_exact|].
  split; [apply HTTPError_permanent_exact | apply HTTPError_transient_exact].
Qed.

(** X13.  [NewInternalError] builds an HTTP 500: the status read back is
    500, the error is retryable unless its cause holds an abandonment
    condition, and it is permanent or transient only through its cause. *)
Theorem NewInternalError_classification (message : string) (cause : error) :
  GetHTTPStatusCode (NewInternalError message cause) = 500
  /\ IsRetryable (NewInternalError message cause) = negb (IsContextError cause)
  /\ IsPermanentError (NewInternalError message cause)
     = IsValidation cause || IsContextError cause || Is cause ErrCircuitOpen
  /\ IsTransientError (NewInternalError message cause) = IsTransientError cause.
Proof.
  unfold NewInternalError, NewHTTPError.
  split; [reflexivity|]. split; [|split].
  - rewrite HTTPError_retryable_exact. simpl. apply andb_true_r.
  - rewrite HTTPError_permanent_exact. simpl. apply orb_false_r.
  - apply HTTPError_transient_exact.
Qed.

Lemma IsHTTPError_wrapAll (msgs : list string) :
  forall err, IsHTTPError (wrapAll err msgs) = IsHTTPError err.
Proof.
  unfold wrapAll. induction msgs as [|msg msgs IH]; intros err; simpl.
  - reflexivity.
  - rewrite IH. apply IsHTTPError_Wrap.
Qed.

(** X14.  The status code given to [NewHTTPError] is read back by
    [GetHTTPStatusCode] through any number of wrap layers, and
    [IsHTTPError] returns the error as built; an [HTTPError] further down
    in the cause does not interfere, the outermost one is found. *)
Theorem HTTP_status_round_trip (statusCode : Z) (message : string)
        (cause : error) (msgs : list string) :
  GetHTTPStatusCode (wrapAll (NewHTTPError statusCode message cause) msgs)
  = statusCode
  /\ IsHTTPError (wrapAll (NewHTTPError statusCode message cause) msgs)
     = Some (HTTPError.mk statusCode message "" cause).
Proof.
  unfold GetHTTPStatusCode. rewrite IsHTTPError_wrapAll. split; reflexivity.
Qed.

(* ================================================================= *)
(** ** Options in sequence *)

(** X15.  How the options of options.go compose on any value: of two
    options of the same kind the later one wins, and two options of
    different kinds can be given in either order. *)
Theorem options_compose (a b : adjustment) (err : error) :
  declaredInOptionsGo a = true ->
  declaredInOptionsGo b = true ->
  (sameKind a b = true -> optionOf b (optionOf a err) = optionOf b err)
  /\ (sameKind a b = false ->
      optionOf b (optionOf a err) = optionOf a (optionOf b err)).
Proof.
  intros Ha Hb. split; intros Hk;
    destruct a; try discriminate Ha; destruct b;
      try discriminate Hb; try discriminate Hk; destruct err; reflexivity.
Qed.

Lemma options_compose_witness :
  (declaredInOptionsGo (SetCause (Leaf "first")) = true
   /\ declaredInOptionsGo (SetCause (Leaf "second")) = true
   /\ sameKind (SetCause (Leaf "first")) (SetCause (Leaf "second")) = true
   /\ NewTimeoutError "t" "op" seconds30
        [WithCause (Leaf "first"); WithCause (Leaf "second")]
      = NewTimeoutError "t" "op" seconds30 [WithCause (Leaf "second")])
  /\ (declaredInOptionsGo (SetCause (Leaf "first")) = true
      /\ declaredInOptionsGo (SetMessage "again") = true
      /\ sameKind (SetCause (Leaf "first")) (SetMessage "again") = false
      /\ NewTimeoutError "t" "op" seconds30
           [WithCause (Leaf "first"); WithMessage "again"]
         = NewTimeoutError "t" "op" seconds30
             [WithMessage "again"; WithCause (Leaf "first")]).
Proof.
  split; (repeat (split; [reflexivity|])).
  - apply (@options_compose (SetCause (Leaf "first")) (SetCause (Leaf "second"))
             (NewTimeoutError "t" "op" seconds30 []) eq_refl eq_refl).
    reflexivity.
  - apply (@options_compose (SetCause (Leaf "first")) (SetMessage "again")
             (NewTimeoutError "t" "op" seconds30 []) eq_refl eq_refl).
    reflexivity.
Defined.

Lemma ProcessingError_flag_after_options (adjs : list adjustment) :
  forall e : ProcessingError.t error,
    Retryable_field (applyOptions (EProcessing e) (map optionOf adjs))
    = Some (lastCarried carriedRetryable adjs (ProcessingError.Retryable e)).
Proof.
  unfold applyOptions.
  induction adjs as [|a adjs IH]; intros e; [reflexivity|].
  destruct a; simpl; rewrite IH; reflexivity.
Qed.

Lemma NetworkError_flag_after_options (adjs : list adjustment) :
  forall e : NetworkError.t error,
    IsTransient_field (applyOptions (ENetwork e) (map optionOf adjs))
    = Some (lastCarried carriedTransient adjs (NetworkError.IsTransient e)).
Proof.
  unfold applyOptions.
  induction adjs as [|a adjs IH]; intros e; [reflexivity|].
  destruct a; simpl; rewrite IH; reflexivity.
Qed.

(** X16.  The flags of a constructed error are those of the last option
    that sets them, and the constructor's default when no option does:
    false for [NewProcessingError], true for [NewRetryableProcessingError]
    (so a [WithRetryable(false)] passed to it wins over its default), true
    for [NewNetworkError]. *)
Theorem flags_follow_the_last_option (message operation : string)
        (adjs : list adjustment) :
  forallb declaredInOptionsGo adjs = true ->
  Retryable_field (NewProcessingError message operation (map optionOf adjs))
  = Some (lastCarried carriedRetryable adjs false)
  /\ Retryable_field
       (NewRetryableProcessingError message operation (map optionOf adjs))
     = Some (lastCarried carriedRetryable adjs true)
  /\ IsTransient_field (NewNetworkError message operation (map optionOf adjs))
     = Some (lastCarried carriedTransient adjs true).
Proof.
  intros _. split; [|split].
  - apply ProcessingError_flag_after_options.
  - apply (ProcessingError_flag_after_options (SetRetryableFlag true :: adjs)).
  - apply NetworkError_flag_after_options.
Qed.

Lemma flags_follow_the_last_option_witness :
  forallb declaredInOptionsGo
          [SetItemID "item-123"; SetRetryableFlag false; SetMessage "again"] = true
  /\ Retryable_field
       (NewRetryableProcessingError "Failed to process" "ProcessItem"
          [WithItemID "item-123"; WithRetryable false; WithMessage "again"])
     = Some false.
Proof.
  split; [reflexivity|].
  apply (@flags_follow_the_last_option "Failed to process" "ProcessItem"
           [SetItemID "item-123"; SetRetryableFlag false; SetMessage "again"]
           eq_refl).
Defined.

Ltac cause_after_options adjs :=
  unfold applyOptions;
  induction adjs as [|a adjs IH]; intros e; [reflexivity|];
  destruct a; simpl; rewrite IH; reflexivity.

Lemma RateLimitError_cause_after_options (adjs : list adjustment) :
  forall e : RateLimitError.t error,
    Unwrap (applyOptions (ERateLimit e) (map optionOf adjs))
    = lastCarried carriedCause adjs (RateLimitError.Err e).
Proof. cause_after_options adjs. Qed.

Lemma TimeoutError_cause_after_options (adjs : list adjustment) :
  forall e : TimeoutError.t error,
    Unwrap (applyOptions (ETimeout e) (map optionOf adjs))
    = lastCarried carriedCause adjs (TimeoutError.Err e).
Proof. cause_after_options adjs. Qed.

Lemma ValidationError_cause_after_options (adjs : list adjustment) :
  forall e : ValidationError.t error,
    Unwrap (applyOptions (EValidation e) (map optionOf adjs))
    = lastCarried carriedCause adjs (ValidationError.Err e).
Proof. cause_after_options adjs. Qed.

Lemma ProcessingError_cause_after_options (adjs : list adjustment) :
  forall e : ProcessingError.t error,
    Unwrap (applyOptions (EProcessing e) (map optionOf adjs))
    = lastCarried carriedCause adjs (ProcessingError.Err e).
Proof. cause_after_options adjs. Qed.

Lemma NetworkError_cause_after_options (adjs : list adjustment) :
  forall e : NetworkError.t error,
    Unwrap (applyOptions (ENetwork e) (map optionOf adjs))
    = lastCarried carriedCause adjs (NetworkError.Err e).
Proof. cause_after_options adjs. Qed.

Lemma CircuitBreakerError_cause_after_options (adjs : list adjustment) :
  forall e : CircuitBreakerError.t error,
    Unwrap (applyOptions (ECircuitBreaker e) (map optionOf adjs))
    = lastCarried carriedCause adjs (CircuitBreakerError.Err e).
Proof. cause_after_options adjs. Qed.

Lemma RetryableError_cause_after_options (adjs : list adjustment) :
  forall e : RetryableError.t error,
    Unwrap (applyOptions (ERetryable e) (map optionOf adjs))
    = RetryableError.Err e.
Proof. cause_after_options adjs. Qed.

Lemma RetryError_cause_after_options (adjs : list adjustment) :
  forall e : RetryError.t error,
    Unwrap (applyOptions (ERetry e) (map optionOf adjs))
    = Sentinel ErrRetryExhausted.
Proof. cause_after_options adjs. Qed.

(** X17.  What a constructed error unwraps to, for any list of the options
    of options.go: the cause of the last [WithCause], nil when there is
    none, for the six constructors [WithCause] reaches; always nil for
    [NewRetryableError]; always the sentinel [ErrRetryExhausted] for
    [NewRetryError]. *)
Theorem constructed_error_unwraps_to_last_cause (message operation text : string)
        (duration attempts maxAttempts : Z) (lastError : error)
        (allErrors : list error) (adjs : list adjustment) :
  forallb declaredInOptionsGo adjs = true ->
  Unwrap (NewRateLimitError message operation duration (map optionOf adjs))
  = lastCarried carriedCause adjs NoError
  /\ Unwrap (NewTimeoutError message operation duration (map optionOf adjs))
     = lastCarried carriedCause adjs NoError
  /\ Unwrap (NewValidationError message text (map optionOf adjs))
     = lastCarried carriedCause adjs NoError
  /\ Unwrap (NewProcessingError message operation (map optionOf adjs))
     = lastCarried carriedCause adjs NoError
  /\ Unwrap (NewNetworkError message operation (map optionOf adjs))
     = lastCarried carriedCause adjs NoError
  /\ Unwrap (NewCircuitBreakerError message operation text (map optionOf adjs))
     = lastCarried carriedCause adjs NoError
  /\ Unwrap (NewRetryableError message operation duration (map optionOf adjs))
     = NoError
  /\ Unwrap (NewRetryError attempts maxAttempts lastError allErrors
                           (map optionOf adjs))
     = Sentinel ErrRetryExhausted.
Proof.
  intros _. repeat split.
  - apply RateLimitError_cause_after_options.
  - apply TimeoutError_cause_after_options.
  - apply ValidationError_cause_after_options.
  - apply ProcessingError_cause_after_options.
  - apply NetworkError_cause_after_options.
  - apply CircuitBreakerError_cause_after_options.
  - apply RetryableError_cause_after_options.
  - apply RetryError_cause_after_options.
Qed.

Lemma constructed_error_unwraps_to_last_cause_witness :
  forallb declaredInOptionsGo
          [SetCause (Leaf "dial tcp"); SetOperation "Connect";
           SetCause (Sentinel ErrConnectionError)] = true
  /\ Unwrap (NewNetworkError "Connection failed" "Dial"
               [WithCause (Leaf "dial tcp"); WithOperation "Connect";
                WithCause (Sentinel ErrConnectionError)])
     = Sentinel ErrConnectionError.
Proof.
  split; [reflexivity|].
  apply (@constructed_error_unwraps_to_last_cause
           "Connection failed" "Dial" "" 0 0 0 NoError []
           [SetCause (Leaf "dial tcp"); SetOperation "Connect";
            SetCause (Sentinel ErrConnectionError)] eq_refl).
Defined.

(* ================================================================= *)
(** ** Messages *)

Lemma ends_with_more (a s t : string) :
  (exists prefix, s = prefix ++ t) -> exists prefix, a ++ s = prefix ++ t.
Proof.
  intros [prefix ->]. exists (a ++ prefix). symmetry. apply append_assoc3.
Qed.

Ltac ends_with_cause :=
  repeat first
    [ solve [ exists ""; reflexivity ]
    | solve [ exists ")"; reflexivity ]
    | apply ends_with_more ].

(** X18.  The message of the cause is never dropped: when a variant has a
    cause, its message is some text, then ": ", then the message of the
    cause, for the eight variants with a cause field; the message of a
    [RetryError] ends in the same way with its last error. *)
Theorem message_ends_with_cause :
  (forall err cause : error,
      Err_field err = Some cause ->
      isNil cause = false ->
      exists prefix, Error err = prefix ++ ": " ++ Error cause)
  /\ (forall e : RetryError.t error,
         isNil (RetryError.LastError e) = false ->
         exists prefix,
           Error (ERetry e) = prefix ++ ": " ++ Error (RetryError.LastError e)).
Proof.
  split.
  - intros err cause H Hn.
    destruct err; simpl in H; try discriminate H; injection H as H;
      simpl Error.
    + unfold HTTPError_Error. rewrite H, Hn. simpl negb. cbv iota.
      destruct (nonEmpty (HTTPError.Component e)); ends_with_cause.
    + unfold RateLimitError_Error. rewrite H, Hn. simpl negb. cbv iota.
      destruct (nonEmpty (RateLimitError.Component e)); ends_with_cause.
    + unfold RetryableError_Error. rewrite H, Hn. simpl negb. cbv iota.
      destruct (nonEmpty (RetryableError.Component e)); ends_with_cause.
    + unfold TimeoutError_Error. rewrite H, Hn. simpl negb. cbv iota.
      destruct (nonEmpty (TimeoutError.Component e)); ends_with_cause.
    + unfold ValidationError_Error. rewrite H, Hn. simpl negb. cbv iota.
      destruct (nonEmpty (ValidationError.Component e));
        destruct (nonEmpty (ValidationError.Message e)); ends_with_cause.
    + unfold ProcessingError_Error. rewrite H, Hn. simpl negb. cbv iota.
      destruct (nonEmpty (ProcessingError.Component e));
        destruct (nonEmpty (ProcessingError.ItemID e));
        destruct (ProcessingError.Retryable e); ends_with_cause.
    + unfold NetworkError_Error. rewrite H, Hn. simpl negb. cbv iota.
      destruct (nonEmpty (NetworkError.Component e));
        destruct (NetworkError.IsTransient e); ends_with_cause.
    + unfold CircuitBreakerError_Error. rewrite H, Hn. simpl negb. cbv iota.
      destruct (nonEmpty (CircuitBreakerError.Component e)); ends_with_cause.
  - intros e Hn. simpl Error. unfold RetryError_Error. rewrite Hn.
    simpl negb. cbv iota.
    destruct (nonEmpty (RetryError.Component e));
      destruct (nonEmpty _); ends_with_cause.
Qed.

Lemma message_ends_with_cause_witness :
  Err_field (NewHTTPError 500 "Internal Server Error"
               (Leaf "database connection failed"))
  = Some (Leaf "database connection failed")
  /\ isNil (Leaf "database connection failed") = false
  /\ exists prefix,
      Error (NewHTTPError 500 "Internal Server Error"
               (Leaf "database connection failed"))
      = prefix ++ ": " ++ Error (Leaf "database connection failed").
Proof.
  split; [reflexivity|]. split; [reflexivity|].
  destruct message_ends_with_cause as [H _].
  apply (H (NewHTTPError 500 "Internal Server Error"
              (Leaf "database connection failed"))
           (Leaf "database connection failed")); reflexivity.
Defined.

(* ================================================================= *)
(** ** The logging helpers *)

(** X19.  For every non-nil error [ExtractErrorInfo] returns a map with the
    keys "message", "retryable" and "type": the message is the error's own,
    "retryable" is the verdict of [IsRetryable] on the whole chain, and the
    type is one of eight names. *)
Theorem ExtractErrorInfo_common_keys (err : error) :
  isNil err = false ->
  exists info : gmap string any,
    ExtractErrorInfo err = Some info
    /\ info !! "message" = Some (AnyString (Error err))
    /\ info !! "retryable" = Some (AnyBool (IsRetryable err))
    /\ exists name, info !! "type" = Some (AnyString name) /\ In name typeNames.
Proof.
  intros Hn. unfold typeNames.
  destruct err as [|s|m|m c|e|e|e|e|e|e|e|e|e|e]; [discriminate Hn|..];
    try (eexists; split; [reflexivity|]; split; [reflexivity|];
         split; [reflexivity|]; eexists; split; [reflexivity|];
         simpl; tauto).
  - destruct e as [message field component value cause].
    destruct value;
      (eexists; split; [reflexivity|]; split; [reflexivity|];
       split; [reflexivity|]; eexists; split; [reflexivity|]; simpl; tauto).
  - destruct e as [message operation itemID component retryable cause].
    destruct itemID;
      (eexists; split; [reflexivity|]; split; [reflexivity|];
       split; [reflexivity|]; eexists; split; [reflexivity|]; simpl; tauto).
Qed.

Lemma ExtractErrorInfo_common_keys_witness :
  isNil (Wrap (NewHTTPError 503 "Service Unavailable" NoError) "fetch") = false
  /\ exists info : gmap string any,
      ExtractErrorInfo (Wrap (NewHTTPError 503 "Service Unavailable" NoError) "fetch")
      = Some info
      /\ info !! "message"
         = Some (AnyString
                   (Error (Wrap (NewHTTPError 503 "Service Unavailable" NoError)
                                "fetch")))
      /\ info !! "retryable"
         = Some (AnyBool
                   (IsRetryable (Wrap (NewHTTPError 503 "Service Unavailable" NoError)
                                      "fetch")))
      /\ exists name, info !! "type" = Some (AnyString name) /\ In name typeNames.
Proof.
  split; [reflexivity|].
  apply (ExtractErrorInfo_common_keys
           (Wrap (NewHTTPError 503 "Service Unavailable" NoError) "fetch")).
  reflexivity.
Defined.

(** X20.  The optional keys of the info map.  "status_code" is present
    exactly when the error itself is an [HTTPError] and then holds its
    status; "value" is present for a [ValidationError] exactly when its
    value is not nil; "item_id" is present for a [ProcessingError] exactly
    when its item id is not empty. *)
Theorem ExtractErrorInfo_optional_keys :
  (forall (err : error) (info : gmap string any),
      ExtractErrorInfo err = Some info ->
      info !! "status_code"
      = match err with
        | EHTTP e => Some (AnyInt (HTTPError.StatusCode e))
        | _ => None
        end)
  /\ (forall (e : ValidationError.t error) (info : gmap string any),
         ExtractErrorInfo (EValidation e) = Some info ->
         info !! "value"
         = match ValidationError.Value e with
           | AnyNil => None
           | value => Some value
           end)
  /\ (forall (e : ProcessingError.t error) (info : gmap string any),
         ExtractErrorInfo (EProcessing e) = Some info ->
         info !! "item_id"
         = if nonEmpty (ProcessingError.ItemID e)
           then Some (AnyString (ProcessingError.ItemID e))
           else None).
Proof.
  split; [|split].
  - intros err info H.
    destruct err as [|s|m|m c|e|e|e|e|e|e|e|e|e|e]; [discriminate H|..];
      try (injection H as <-; reflexivity).
    + destruct e as [message field component value cause].
      destruct value; injection H as <-; reflexivity.
    + destruct e as [message operation itemID component retryable cause].
      destruct itemID; injection H as <-; reflexivity.
  - intros e info H.
    destruct e as [message field component value cause].
    destruct value; injection H as <-; reflexivity.
  - intros e info H.
    destruct e as [message operation itemID component retryable cause].
    destruct itemID; injection H as <-; reflexivity.
Qed.

Lemma ExtractErrorInfo_optional_keys_witness :
  exists info : gmap string any,
    ExtractErrorInfo (NewValidationError "Price must be positive" "price"
                        [WithValue (AnyInt (-10))]) = Some info
    /\ info !! "value" = Some (AnyInt (-10))
    /\ info !! "status_code" = None.
Proof.
  eexists. split; [reflexivity|].
  destruct ExtractErrorInfo_optional_keys as (Hstatus & Hvalue & _).
  split.
  - apply (Hvalue (ValidationError.mk "Price must be positive" "price" ""
                                       (AnyInt (-10)) NoError)).
    reflexivity.
  - apply (Hstatus (NewValidationError "Price must be positive" "price"
                      [WithValue (AnyInt (-10))])).
    reflexivity.
Defined.

(** X21.  The type switches of the logging helpers look at the error itself,
    not at its chain, and list seven struct types.  Every other non-nil
    error is logged under the generic name "Error", without type-specific
    keys: a typed error under a wrap layer, but also a [RetryableError] and
    a [RetryError], for which the switches have no case. *)
Theorem unlisted_errors_are_logged_as_Error (err : error) :
  isNil err = false ->
  listedType err = false ->
  FormatError err = "Error: " ++ Error err
  /\ exists info : gmap string any,
      ExtractErrorInfo err = Some info
      /\ info !! "type" = Some (AnyString "Error")
      /\ info !! "operation" = None
      /\ info !! "status_code" = None.
Proof.
  intros Hn Hl.
  destruct err; try discriminate Hn; try discriminate Hl;
    (split; [reflexivity|]; eexists; repeat split).
Qed.

Lemma unlisted_errors_are_logged_as_Error_witness :
  (isNil (Wrap (NewHTTPError 503 "Service Unavailable" NoError) "fetch") = false
   /\ listedType (Wrap (NewHTTPError 503 "Service Unavailable" NoError) "fetch")
      = false
   /\ GetHTTPStatusCode (Wrap (NewHTTPError 503 "Service Unavailable" NoError) "fetch")
      = 503
   /\ FormatError (Wrap (NewHTTPError 503 "Service Unavailable" NoError) "fetch")
      = "Error: fetch: HTTP 503: Service Unavailable")
  /\ (isNil (NewRetryableError "try later" "Sync" seconds30 []) = false
      /\ listedType (NewRetryableError "try later" "Sync" seconds30 []) = false
      /\ FormatError (NewRetryableError "try later" "Sync" seconds30 [])
         = "Error: retryable error in Sync (retry after 30s): try later").
Proof.
  split.
  - repeat (split; [reflexivity|]).
    apply (@unlisted_errors_are_logged_as_Error
             (Wrap (NewHTTPError 503 "Service Unavailable" NoError) "fetch")
             eq_refl eq_refl).
  - repeat (split; [reflexivity|]).
    apply (@unlisted_errors_are_logged_as_Error
             (NewRetryableError "try later" "Sync" seconds30 []) eq_refl eq_refl).
Defined.

(** X22.  The label [FormatError] gives a [ProcessingError] comes from the
    error's own [IsRetryable] method; when the chain holds no abandonment
    condition it agrees with the package-level [IsRetryable] and with the
    "retryable" entry of [ExtractErrorInfo]. *)
Theorem FormatError_processing_label (e : ProcessingError.t error) :
  IsContextError (EProcessing e) = false ->
  FormatError (EProcessing e)
  = "ProcessingError("
      ++ (if IsRetryable (EProcessing e) then "retryable" else "not retryable")
      ++ "): " ++ Error (EProcessing e).
Proof.
  intros Hctx. rewrite (IsRetryable_ProcessingError e Hctx).
  unfold FormatError. simpl isNil. cbv iota.
  destruct (ProcessingError_IsRetryable IsRetryable e); reflexivity.
Qed.

Lemma FormatError_processing_label_witness :
  IsContextError
    (NewProcessingError "import" "Load" [WithCause (Sentinel ErrRateLimited)])
  = false
  /\ FormatError
       (NewProcessingError "import" "Load" [WithCause (Sentinel ErrRateLimited)])
     = "ProcessingError(retryable): import: Load failed (not retryable): rate limited".
Proof.
  split; [reflexivity|].
  exact (@FormatError_processing_label
           (ProcessingError.mk "import" "Load" "" "" false
                               (Sentinel ErrRateLimited)) eq_refl).
Defined.
